(** * A CSV report generator (script_for_csv.py), embedded and verified

    The script reads delimited files into a list of records
    ([CSVReader.read_csv_files]), looks a report class up by name
    ([ReportFactory]), lets it fold the records into per-position averages
    ([PerformanceReport.generate]) and prints the table ([main]).

    Conventions of the embedding:
    - a Python [str] is a [string]; a character stands for its code point,
      so the strings covered are those over code points below 256;
    - a Python [float] is an IEEE 754 binary64 value, [spec_float] with
      precision 53 and maximal exponent 1024;
    - a raised exception is the [Raise] case of [result];
    - the [csv] module's decoder, sniffer and tokenizer are not part of the
      script: a file is given by what they return on it ([csv_file]);
      [csv.DictReader] itself is written out after the standard library. *)

From Stdlib Require Import ZArith Ascii String List Bool Lia.
From Stdlib Require Import Sorting.Sorted Permutation.
From Stdlib Require Import Floats.SpecFloat.
From stdpp Require Import base option strings gmap list sorting.

Local Open Scope Z_scope.

(** ** Exceptions *)

Inductive exn :=
  | FileNotFoundError
  | IsADirectoryError
  | ValueError
  | AttributeError
  | NotImplementedError.

Inductive result (A : Type) :=
  | Ok (a : A)
  | Raise (e : exn).
Arguments Ok {A} a.
Arguments Raise {A} e.

Definition bind {A B : Type} (r : result A) (k : A -> result B) : result B :=
  match r with
  | Ok a => k a
  | Raise e => Raise e
  end.

Notation "x <-- r ;; k" := (bind r (fun x => k))
  (at level 100, r at next level, right associativity).

(** ** Strings: [str.strip], [str.lower], truth value *)

Module PyStr.

Definition code (c : ascii) : nat := nat_of_ascii c.

Definition between (lo hi : nat) (c : ascii) : bool :=
  (Nat.leb lo (code c) && Nat.leb (code c) hi)%bool.

(** [str.isspace] on one character: TAB..CR, FS..US, SPACE, NEL, NBSP. *)
Definition isspace (c : ascii) : bool :=
  (between 9 13 c || between 28 32 c
   || Nat.eqb (code c) 133 || Nat.eqb (code c) 160)%bool.

Fixpoint lstrip_with (sp : ascii -> bool) (cs : list ascii) : list ascii :=
  match cs with
  | c :: cs' => if sp c then lstrip_with sp cs' else cs
  | [] => []
  end.

Fixpoint rstrip_with (sp : ascii -> bool) (cs : list ascii) : list ascii :=
  match cs with
  | c :: cs' =>
      match rstrip_with sp cs' with
      | [] => if sp c then [] else [c]
      | r => c :: r
      end
  | [] => []
  end.

Definition strip_with (sp : ascii -> bool) (cs : list ascii) : list ascii :=
  rstrip_with sp (lstrip_with sp cs).

(** [s.strip()] *)
Definition strip (s : string) : string :=
  string_of_list_ascii (strip_with isspace (list_ascii_of_string s)).

(** [c.lower()]: A..Z and the Latin-1 capitals (all of 192..222 but the
    multiplication sign 215) move up by 32. *)
Definition lower_char (c : ascii) : ascii :=
  if (between 65 90 c
      || (between 192 222 c && negb (Nat.eqb (code c) 215)))%bool
  then ascii_of_nat (code c + 32) else c.

(** [s.lower()] *)
Fixpoint lower (s : string) : string :=
  match s with
  | EmptyString => EmptyString
  | String c s' => String (lower_char c) (lower s')
  end.

(** [bool(s)]: a string is true when it is not empty. *)
Definition truthy (s : string) : bool :=
  match s with
  | EmptyString => false
  | String _ _ => true
  end.

End PyStr.

(** ** Floats: [float(s)], [+], [/], [<], [round(x, 2)], [sum] *)

Module PyFloat.

Definition float : Type := spec_float.

Definition prec : Z := 53.
Definition emax : Z := 1024.

Definition nan : float := S754_nan.
Definition zero : float := S754_zero false.

Definition add : float -> float -> float := SFadd prec emax.
Definition sub : float -> float -> float := SFsub prec emax.
Definition div : float -> float -> float := SFdiv prec emax.
Definition ltb : float -> float -> bool := SFltb.
Definition leb : float -> float -> bool := SFleb.
Definition abs : float -> float := SFabs.

Definition is_nan (x : float) : bool :=
  match x with
  | S754_nan => true
  | _ => false
  end.

Definition is_zero (x : float) : bool :=
  match x with
  | S754_zero _ => true
  | _ => false
  end.

Definition is_finite (x : float) : bool :=
  match x with
  | S754_zero _ | S754_finite _ _ _ => true
  | _ => false
  end.

(** [float(n)] for an integer [n >= 0], as in [x / len(xs)]. *)
Definition of_nat (n : nat) : float :=
  binary_normalize prec emax (Z.of_nat n) 0 false.

(** The binary64 value nearest to [(-1)^neg * m * 10^e], ties to even. *)
Definition of_decimal (neg : bool) (m e : Z) : float :=
  match m with
  | Zpos p =>
      if 0 <=? e
      then binary_round prec emax neg (p * Z.to_pos (10 ^ e)) 0
      else div (S754_finite neg p 0)
               (S754_finite false (Z.to_pos (10 ^ (- e))) 0)
  | _ => S754_zero neg
  end.

(** *** [float(s)] *)

Definition is_digit (c : ascii) : bool := PyStr.between 48 57 c.

Definition digit_value (c : ascii) : Z := Z.of_nat (PyStr.code c) - 48.

Definition digits_value (ds : list ascii) : Z :=
  fold_left (fun acc c => acc * 10 + digit_value c) ds 0.

(** Whitespace that [float] skips at both ends: the C white space, and
    NEL and NBSP, which the conversion to ASCII turns into spaces. *)
Definition is_float_space (c : ascii) : bool :=
  (PyStr.between 9 13 c || Nat.eqb (PyStr.code c) 32
   || Nat.eqb (PyStr.code c) 133 || Nat.eqb (PyStr.code c) 160)%bool.

Definition is_underscore (c : ascii) : bool := Nat.eqb (PyStr.code c) 95.

(** Underscores are dropped; each must stand between two digits. *)
Fixpoint drop_underscores (prev : option ascii) (cs : list ascii)
  : option (list ascii) :=
  match cs with
  | [] =>
      match prev with
      | Some p => if is_underscore p then None else Some []
      | None => Some []
      end
  | c :: cs' =>
      if is_underscore c then
        match prev with
        | Some p => if is_digit p then drop_underscores (Some c) cs' else None
        | None => None
        end
      else
        match prev with
        | Some p =>
            if (is_underscore p && negb (is_digit c))%bool then None
            else option_map (cons c) (drop_underscores (Some c) cs')
        | None => option_map (cons c) (drop_underscores (Some c) cs')
        end
  end.

Fixpoint span_digits (cs : list ascii) : list ascii * list ascii :=
  match cs with
  | c :: cs' =>
      if is_digit c
      then let '(ds, rest) := span_digits cs' in (c :: ds, rest)
      else ([], cs)
  | [] => ([], [])
  end.

Definition is_char (n : nat) (c : ascii) : bool := Nat.eqb (PyStr.code c) n.

(** A leading [+] or [-]: whether the sign is minus, and the rest. *)
Definition split_sign (cs : list ascii) : bool * list ascii :=
  match cs with
  | c :: cs' =>
      if is_char 45 c then (true, cs')
      else if is_char 43 c then (false, cs')
      else (false, cs)
  | [] => (false, [])
  end.

(** What follows the mantissa: nothing, or [e]/[E], a sign, digits. *)
Definition parse_exponent (cs : list ascii) : option Z :=
  match cs with
  | [] => Some 0
  | c :: cs' =>
      if (is_char 101 c || is_char 69 c)%bool then
        let '(neg, ds) := split_sign cs' in
        match ds with
        | [] => None
        | _ :: _ =>
            if forallb is_digit ds
            then Some (if neg then - digits_value ds else digits_value ds)
            else None
        end
      else None
  end.

(** [digits], [digits.], [digits.digits] or [.digits], then an exponent:
    the integer made of all the digits, and the power of ten. *)
Definition parse_number (cs : list ascii) : option (Z * Z) :=
  let '(ip, r1) := span_digits cs in
  let '(fp, r2) :=
    match r1 with
    | c :: t => if is_char 46 c then span_digits t else ([], r1)
    | [] => ([], r1)
    end in
  match ip ++ fp with
  | [] => None
  | ds =>
      match parse_exponent r2 with
      | Some e => Some (digits_value ds, e - Z.of_nat (length fp))
      | None => None
      end
  end.

(** [inf], [infinity] and [nan], in any letter case. *)
Definition parse_inf_or_nan (neg : bool) (cs : list ascii) : option float :=
  let w := PyStr.lower (string_of_list_ascii cs) in
  if (String.eqb w "inf" || String.eqb w "infinity")%bool
  then Some (S754_infinity neg)
  else if String.eqb w "nan" then Some nan
  else None.

(** [float(s)]; [None] stands for the [ValueError]. *)
Definition of_string (s : string) : option float :=
  match drop_underscores None (list_ascii_of_string s) with
  | None => None
  | Some cs =>
      let '(neg, body) := split_sign (PyStr.strip_with is_float_space cs) in
      match parse_number body with
      | Some (m, e) => Some (of_decimal neg m e)
      | None =>
          match span_digits body with
          | ([], _) => parse_inf_or_nan neg body
          | _ => None
          end
      end
  end.

(** *** [round(x, 2)]

    The decimal with two fractional digits nearest to the exact value of
    [x] (ties to the even last digit), converted back to the nearest
    binary64 value; NaN, infinities and zeros round to themselves. *)

Definition half_even_div (num den : Z) : Z :=
  let q := num / den in
  match (2 * (num mod den)) ?= den with
  | Lt => q
  | Gt => q + 1
  | Eq => if Z.even q then q else q + 1
  end.

Definition round2 (x : float) : float :=
  match x with
  | S754_finite s m e =>
      let hundredths :=
        if 0 <=? e then Zpos m * 2 ^ e * 100
        else half_even_div (Zpos m * 100) (2 ^ (- e)) in
      of_decimal s hundredths (-2)
  | _ => x
  end.

(** *** [sum(xs)]

    The builtin starts from the integer 0, adds the first float to it and
    then stays in binary64. Up to CPython 3.11 it adds from left to
    right; from 3.12 on it carries Neumaier's compensation term. The
    report is therefore defined over an implementation of [sum]. *)

Class SumImpl := py_sum : list float -> float.

Definition sum_left : SumImpl :=
  fun xs => fold_left add xs zero.

Fixpoint neumaier (total c : float) (xs : list float) : float :=
  match xs with
  | [] =>
      if (negb (is_zero c) && is_finite c)%bool then add total c else total
  | x :: xs' =>
      let t := add total x in
      let c' :=
        if leb (abs x) (abs total)
        then add c (add (sub total t) x)
        else add c (add (sub x t) total) in
      neumaier t c' xs'
  end.

Definition sum_neumaier : SumImpl :=
  fun xs =>
    match xs with
    | [] => zero
    | x :: xs' => neumaier (add zero x) zero xs'
    end.

(** [sum(xs) / len(xs)] *)
Definition average `{SumImpl} (xs : list float) : float :=
  div (py_sum xs) (of_nat (length xs)).

End PyFloat.

(** ** Lists: [list.sort(key=..., reverse=True)]

    CPython sorts a list of fewer than 64 elements by taking the longest
    initial run (non-descending, or strictly descending and then turned
    around) and inserting the remaining elements one by one at the place a
    binary search finds. Longer lists are cut into such runs, which are
    merged; the merge gives the same list whenever [<] orders the keys
    totally up to ties (a stable sort has one result then), so the
    insertion alone models the sort. With a NaN among the keys of 64 or
    more elements the merge may order the list otherwise than the
    insertion does; nothing below states an order in that case. With
    [reverse=True] the list is reversed before and after, which keeps ties
    in their first order. *)

Module PyList.
Section Sort.

Context {A : Type} (lt : A -> A -> bool).

Fixpoint run_up (prev : A) (l : list A) : list A * list A :=
match l with
| x :: l' =>
    if lt x prev then ([], l)
    else let '(run, rest) := run_up x l' in (x :: run, rest)
| [] => ([], [])
end.

Fixpoint run_down (prev : A) (l : list A) : list A * list A :=
match l with
| x :: l' =>
    if lt x prev
    then let '(run, rest) := run_down x l' in (x :: run, rest)
    else ([], l)
| [] => ([], [])
end.

(** The initial run, put in ascending order, and what follows it. *)
Definition count_run (l : list A) : list A * list A :=
match l with
| x :: y :: l' =>
    if lt y x
    then let '(run, rest) := run_down y l' in (rev (x :: y :: run), rest)
    else let '(run, rest) := run_up y l' in (x :: y :: run, rest)
| _ => (l, [])
end.

(** The binary search of [binarysort] between [l] and [r]. *)
Fixpoint bisect (fuel : nat) (a : list A) (pivot : A) (l r : nat) : nat :=
match fuel with
| O => l
| S fuel' =>
    if (r <=? l)%nat then l
    else
      let p := (l + (r - l) / 2)%nat in
      match a !! p with
      | Some y =>
          if lt pivot y then bisect fuel' a pivot l p
          else bisect fuel' a pivot (S p) r
      | None => l
      end
end.

Definition insert_point (a : list A) (pivot : A) : nat :=
bisect (length a) a pivot 0%nat (length a).

Fixpoint binarysort (sorted rest : list A) : list A :=
match rest with
| [] => sorted
| pivot :: rest' =>
    let l := insert_point sorted pivot in
    binarysort (take l sorted ++ pivot :: drop l sorted) rest'
end.

Definition sort (l : list A) : list A :=
let '(run, rest) := count_run l in binarysort run rest.

Definition sort_reverse (l : list A) : list A := rev (sort (rev l)).

End Sort.
End PyList.

(** ** Records and files *)

(** A value found in a record: a field, the [None] that stands for a
    missing column, or the list of the columns beyond the header. *)
Inductive pyval :=
  | PyStr (s : string)
  | PyNone
  | PyList (l : list string).

(** A record is a [dict]; its keys are field names, and [None] for the
    surplus columns. *)
Abbreviation record := (gmap (option string) pyval).

(** What reading under an encoding and the [csv] machinery give. *)
Inductive decoded (A : Type) :=
  | Text (a : A)
  | CsvError
  | UnicodeDecodeError.
Arguments Text {A} a.
Arguments CsvError {A}.
Arguments UnicodeDecodeError {A}.

(** An existing regular file, seen through the library calls made on it:
    - [sniff_header]: [file.read(1024)] under utf-8, then
      [csv.Sniffer().has_header(sample)];
    - [rows_sniffed]: the rows [csv.reader] yields under the sniffed
      dialect; [rows_excel]: under the default dialect;
    - [rows_cp1251]: the rows under cp1251 and the default dialect, or
      [None] when that attempt raises anything. *)
Record csv_file := {
  sniff_header : decoded bool;
  rows_sniffed : decoded (list (list string));
  rows_excel : decoded (list (list string));
  rows_cp1251 : option (list (list string))
}.

Inductive fs_entry :=
  | Directory
  | File (f : csv_file).

Abbreviation filesystem := (gmap string fs_entry).

Module DictReader.

(** [dict(zip(fieldnames, row))] *)
Definition zip_dict (fieldnames row : list string) : record :=
  fold_left (fun d kv => <[Some (fst kv) := PyStr (snd kv)]> d)
            (combine fieldnames row) ∅.

(** One step of [DictReader.__next__] with [restkey=None] and
    [restval=None]. *)
Definition row_dict (fieldnames row : list string) : record :=
  let d := zip_dict fieldnames row in
  let lf := length fieldnames in
  let lr := length row in
  if (lf <? lr)%nat then <[None := PyList (drop lf row)]> d
  else if (lr <? lf)%nat
  then fold_left (fun d key => <[Some key := PyNone]> d) (drop lr fieldnames) d
  else d.

Definition is_blank (row : list string) : bool :=
  match row with
  | [] => true
  | _ :: _ => false
  end.

(** [list(csv.DictReader(f))] with [fieldnames=None]: the first row
    names the fields, blank rows are skipped. *)
Definition read (rows : list (list string)) : list record :=
  match rows with
  | [] => []
  | fieldnames :: body =>
      map (row_dict fieldnames)
          (List.filter (fun row => negb (is_blank row)) body)
  end.

End DictReader.

Module CSVReader.

(** The retry of a file under cp1251. *)
Definition read_cp1251 (f : csv_file) : result (list record) :=
  match rows_cp1251 f with
  | Some rows => Ok (DictReader.read rows)
  | None => Raise ValueError
  end.

(** The body of the loop for one existing file. *)
Definition read_file (f : csv_file) : result (list record) :=
  match sniff_header f with
  | Text has_header =>
      match (if has_header then rows_sniffed f else rows_excel f) with
      | Text rows => Ok (DictReader.read rows)
      | CsvError => Raise ValueError
      | UnicodeDecodeError => read_cp1251 f
      end
  | CsvError => Raise ValueError
  | UnicodeDecodeError => read_cp1251 f
  end.

Fixpoint read_loop (fs : filesystem) (file_paths : list string)
    (all_data : list record) : result (list record) :=
  match file_paths with
  | [] => Ok all_data
  | file_path :: rest =>
      match fs !! file_path with
      | None => Raise FileNotFoundError
      | Some Directory => Raise IsADirectoryError
      | Some (File f) =>
          file_data <-- read_file f ;;
          read_loop fs rest (all_data ++ file_data)
      end
  end.

Definition read_csv_files (fs : filesystem) (file_paths : list string)
  : result (list record) :=
  read_loop fs file_paths [].

End CSVReader.

(** ** Reports *)

Inductive cell :=
  | CStr (s : string)
  | CFloat (x : PyFloat.float).

(** [(headers, rows)] *)
Definition report : Type := list string * list (list cell).

Module ReportGenerator.

Definition generate (data : list record) : result report :=
  Raise NotImplementedError.

End ReportGenerator.

Module PerformanceReport.
Section Generate.

Context `{PyFloat.SumImpl}.

(** [row.get(key, '').strip()] *)
Definition get_strip (row : record) (key : string) : result string :=
match default (PyStr "") (row !! Some key) with
| PyStr s => Ok (PyStr.strip s)
| PyNone | PyList _ => Raise AttributeError
end.

(** The sample a row contributes, if any: the body of the first loop
  up to the [append]. *)
Definition row_sample (row : record)
: result (option (string * PyFloat.float)) :=
position <-- get_strip row "position" ;;
performance_str <-- get_strip row "performance" ;;
if (PyStr.truthy position && PyStr.truthy performance_str)%bool then
  match PyFloat.of_string performance_str with
  | Some performance => Ok (Some (position, performance))
  | None => Ok None
  end
else Ok None.

(** [position_data[position].append(performance)] on a
  [defaultdict(list)], whose keys stay in the order of insertion. *)
Fixpoint append_sample (position : string) (performance : PyFloat.float)
  (position_data : list (string * list PyFloat.float))
: list (string * list PyFloat.float) :=
match position_data with
| [] => [(position, [performance])]
| (k, performances) :: tl =>
    if String.eqb k position
    then (k, performances ++ [performance]) :: tl
    else (k, performances) :: append_sample position performance tl
end.

Fixpoint collect (data : list record)
  (position_data : list (string * list PyFloat.float))
: result (list (string * list PyFloat.float)) :=
match data with
| [] => Ok position_data
| row :: rest =>
    sample <-- row_sample row ;;
    match sample with
    | Some (position, performance) =>
        collect rest (append_sample position performance position_data)
    | None => collect rest position_data
    end
end.

(** [round(sum(performances) / len(performances), 2)] *)
Definition avg_performance (performances : list PyFloat.float)
: PyFloat.float :=
PyFloat.round2 (PyFloat.average performances).

(** The second loop; a row [[position, avg]] is kept as a pair until
  the report is returned. *)
Fixpoint report_rows (position_data : list (string * list PyFloat.float))
: list (string * PyFloat.float) :=
match position_data with
| [] => []
| (position, performances) :: tl =>
    match performances with
    | [] => report_rows tl
    | _ :: _ => (position, avg_performance performances) :: report_rows tl
    end
end.

Definition sort_rows (rows : list (string * PyFloat.float))
: list (string * PyFloat.float) :=
PyList.sort_reverse (fun x y => PyFloat.ltb (snd x) (snd y)) rows.

Definition row_cells (row : string * PyFloat.float) : list cell :=
[CStr (fst row); CFloat (snd row)].

Definition headers : list string := ["Position"; "Avg Performance"]%string.

Definition generate (data : list record) : result report :=
position_data <-- collect data [] ;;
Ok (headers, map row_cells (sort_rows (report_rows position_data))).

End Generate.
End PerformanceReport.

Module ReportFactory.

Inductive pyclass :=
  | PerformanceReportClass
  | ReportGeneratorClass.

(** The class attribute; a [dict] in insertion order. *)
Definition _reports : list (string * pyclass) :=
  [("performance"%string, PerformanceReportClass)].

(** [reports.get(name)] *)
Fixpoint get (reports : list (string * pyclass)) (name : string)
  : option pyclass :=
  match reports with
  | [] => None
  | (k, c) :: tl => if String.eqb k name then Some c else get tl name
  end.

Definition get_report (reports : list (string * pyclass))
    (report_name : string) : result pyclass :=
  match get reports (PyStr.lower report_name) with
  | Some report_class => Ok report_class
  | None => Raise ValueError
  end.

(** The registry after the call, or the [ValueError]. *)
Definition register_report (reports : list (string * pyclass))
    (report_name : string) (report_class : pyclass)
  : result (list (string * pyclass)) :=
  match get reports report_name with
  | Some _ => Raise ValueError
  | None => Ok (reports ++ [(report_name, report_class)])
  end.

Definition list_reports (reports : list (string * pyclass))
  : list string :=
  map fst reports.

(** [report_class().generate(data)] *)
Definition instance_generate `{PyFloat.SumImpl} (c : pyclass)
    (data : list record) : result report :=
  match c with
  | PerformanceReportClass => PerformanceReport.generate data
  | ReportGeneratorClass => ReportGenerator.generate data
  end.

End ReportFactory.

(** ** The command line *)

Inductive output_format := Table | Csv | Json.

Record arguments := {
  files : list string;
  report_name : string;
  format : output_format;
  list_reports_flag : bool
}.

(** What the run prints, in order. *)
Inductive printed :=
  | ReportList (names : list string)
  | NoDataWarning
  | EmptyReportNotice
  | Rendered (fmt : output_format) (r : report)
  | Summary (records rows : nat)
  | ErrorMessage (e : exn).

Definition is_empty {A : Type} (l : list A) : bool :=
  match l with
  | [] => true
  | _ :: _ => false
  end.

(** The [try] block of [main]: the lines printed and the value returned. *)
Definition run `{PyFloat.SumImpl} (args : arguments) (fs : filesystem)
    (reports : list (string * ReportFactory.pyclass))
  : result (list printed * Z) :=
  data <-- CSVReader.read_csv_files fs (files args) ;;
  if is_empty data then Ok ([NoDataWarning], 1)
  else
    report_generator <-- ReportFactory.get_report reports (report_name args) ;;
    r <-- ReportFactory.instance_generate report_generator data ;;
    if is_empty (snd r) then Ok ([EmptyReportNotice], 0)
    else Ok ([Rendered (format args) r;
              Summary (length data) (length (snd r))], 0).

(** [main()] once [parse_arguments()] has returned [args]: every
    exception is reported and turned into 1. *)
Definition main `{PyFloat.SumImpl} (args : arguments) (fs : filesystem)
    (reports : list (string * ReportFactory.pyclass))
  : list printed * Z :=
  if list_reports_flag args
  then ([ReportList (ReportFactory.list_reports reports)], 0)
  else
    match run args fs reports with
    | Ok out => out
    | Raise e => ([ErrorMessage e], 1)
    end.

(** ** [parse_arguments] and the whole of [main]

    [argparse] is not part of the script: a command line is given by what
    [parser.parse_args()] does on it. Either it returns the namespace, or
    it ends the process by raising [SystemExit] with a status of its own:
    2 after a usage error, such as a missing [--files] or [--report]
    (both are required, also beside [--list-reports]), 0 after
    [--help]. *)
Inductive parsing :=
  | Namespace (args : arguments)
  | SystemExit (status : Z).

(** How a call of [main()] ends: it returns a value, or a [SystemExit]
    leaves it. *)
Inductive ending :=
  | Returns (value : Z)
  | Exits (status : Z).

Module Script.

(** [main()] from its first statement, [args = parse_arguments()]: what
    [main] prints and how the call ends. The [SystemExit] of [argparse]
    is raised outside the [try] block and leaves [main]; what [argparse]
    prints itself is not listed. *)
Definition main `{PyFloat.SumImpl} (command_line : parsing)
    (fs : filesystem) (reports : list (string * ReportFactory.pyclass))
  : list printed * ending :=
  match command_line with
  | SystemExit status => ([], Exits status)
  | Namespace args =>
      let '(out, value) := main args fs reports in (out, Returns value)
  end.

End Script.



(** ** What [main] writes for a report

    [Rendered Table r] stands for the lines of [print_table] and
    [Rendered Json r] for the list of objects handed to [json.dumps]. *)

(** A call of [print] in [print_table]: the grid of [tabulate] for the
    headers and rows handed to it, the two lines that ask for the
    library, or a line of text. *)
Inductive table_line :=
  | Grid (headers : list string) (rows : list (list cell))
  | InstallNotice
  | InstallCommand
  | Line (text : string).

Module Output.
Section PrintTable.

(** [str(x)] for a float. *)
Variable float_str : PyFloat.float -> string.

(** [str(item)] *)
Definition str (item : cell) : string :=
match item with
| CStr s => s
| CFloat x => float_str x
end.

(** [sep.join(items)] *)
Fixpoint join (sep : string) (items : list string) : string :=
match items with
| [] => EmptyString
| [item] => item
| item :: tl => String.append item (String.append sep (join sep tl))
end.

(** ["-" * n] *)
Fixpoint dashes (n : nat) : string :=
match n with
| O => EmptyString
| S n' => String "-" (dashes n')
end.

(** [print_table(headers, rows)], with or without [tabulate]
  installed. *)
Definition print_table (has_tabulate : bool) (headers : list string)
  (rows : list (list cell)) : list table_line :=
if has_tabulate then [Grid headers rows]
else
  let header_line := join " | " headers in
  [InstallNotice; InstallCommand;
   Line header_line;
   Line (dashes (String.length header_line))]
    ++ map (fun row => Line (join " | " (map str row))) rows.

End PrintTable.

(** [dict(zip(headers, row))] *)
Definition json_object (headers : list string) (row : list cell)
  : gmap string cell :=
  fold_left (fun d kv => <[fst kv := snd kv]> d) (combine headers row) ∅.

(** The list handed to [json.dumps]. *)
Definition json_result (headers : list string) (rows : list (list cell))
  : list (gmap string cell) :=
  map (json_object headers) rows.

End Output.

(** * Vocabulary of the properties *)

Definition is_str (v : pyval) : bool :=
  match v with
  | PyStr _ => true
  | PyNone | PyList _ => false
  end.

(** What the record holds under ['position'] and under ['performance'],
    if anything, is a string. *)
Definition string_fields (row : record) : Prop :=
  is_str (default (PyStr "") (row !! Some "position"%string)) = true /\
  is_str (default (PyStr "") (row !! Some "performance"%string)) = true.

(** The trimmed text of a field that is present. *)
Definition field (row : record) (key : string) : option string :=
  match row !! Some key with
  | Some (PyStr s) => Some (PyStr.strip s)
  | _ => None
  end.

(** The sample of a valid record: both fields are present and not empty
    once trimmed, and the number parses. *)
Definition valid_sample (row : record) : option (string * PyFloat.float) :=
  match field row "position", field row "performance" with
  | Some position, Some text =>
      if (PyStr.truthy position && PyStr.truthy text)%bool
      then option_map (pair position) (PyFloat.of_string text)
      else None
  | _, _ => None
  end.

Definition is_valid (row : record) : bool :=
  match valid_sample row with
  | Some _ => true
  | None => false
  end.

(** The samples of the valid records of a group, in the order met. *)
Definition samples (data : list record) (key : string) : list PyFloat.float :=
  flat_map (fun row =>
              match valid_sample row with
              | Some (position, performance) =>
                  if String.eqb position key then [performance] else []
              | None => []
              end) data.

(** Every row is at least as large as each row after it. *)
Definition descending (rows : list (list cell)) : Prop :=
  forall (i j : nat) ki vi kj vj,
    (i < j)%nat ->
    rows !! i = Some [CStr ki; CFloat vi] ->
    rows !! j = Some [CStr kj; CFloat vj] ->
    PyFloat.leb vj vi = true.

(** The error a path raises when its turn comes, if it raises one. *)
Definition path_error (fs : filesystem) (path : string) : option exn :=
  match fs !! path with
  | None => Some FileNotFoundError
  | Some Directory => Some IsADirectoryError
  | Some (File f) =>
      match CSVReader.read_file f with
      | Ok _ => None
      | Raise e => Some e
      end
  end.

(** A path that is read without an error. *)
Definition readable (fs : filesystem) (path : string) : Prop :=
  path_error fs path = None.

(** ** Auxiliary notions of the proofs *)

(** [x] may stand before [y] in an ascending list of elements in [P]. *)
Definition upto {A : Type} (lt : A -> A -> bool) (P : A -> Prop) (x y : A)
  : Prop :=
  P x /\ P y /\ lt y x = false.

(** [y] is strictly below [x]. *)
Definition above {A : Type} (lt : A -> A -> bool) (P : A -> Prop) (x y : A)
  : Prop :=
  P x /\ P y /\ lt y x = true.

(** Where a value that is not NaN stands: its class, then the exponent
    and the mantissa, negated below zero. *)
Definition rank (x : PyFloat.float) : Z * (Z * Z) :=
  match x with
  | S754_infinity true => (-2, (0, 0))
  | S754_finite true m e => (-1, (- e, - Zpos m))
  | S754_zero _ | S754_nan => (0, (0, 0))
  | S754_finite false m e => (1, (e, Zpos m))
  | S754_infinity false => (2, (0, 0))
  end.

Definition lex_lt (a b : Z * (Z * Z)) : Prop :=
  fst a < fst b \/
  (fst a = fst b /\
   (fst (snd a) < fst (snd b) \/
    (fst (snd a) = fst (snd b) /\ snd (snd a) < snd (snd b)))).

(** One turn of the first loop on a record whose fields are strings. *)
Definition add_row (position_data : list (string * list PyFloat.float))
    (row : record) : list (string * list PyFloat.float) :=
  match valid_sample row with
  | Some (position, performance) =>
      PerformanceReport.append_sample position performance position_data
  | None => position_data
  end.

(** [position_data.get(key, [])] *)
Fixpoint entry (position_data : list (string * list PyFloat.float))
    (key : string) : list PyFloat.float :=
  match position_data with
  | [] => []
  | (k, performances) :: tl =>
      if String.eqb k key then performances else entry tl key
  end.

(** Keys are distinct and no list of samples is empty. *)
Definition well_formed (position_data : list (string * list PyFloat.float))
  : Prop :=
  NoDup (map fst position_data) /\ Forall (fun e => snd e <> []) position_data.

(** [d[key] = value] for a field name. *)
Definition put (d : record) (kv : string * pyval) : record :=
  <[Some (fst kv) := snd kv]> d.

(** The value a row gives to the column [i]. *)
Definition column (row : list string) (i : nat) : pyval :=
  match row !! i with
  | Some s => PyStr s
  | None => PyNone
  end.

(** The assignments [row_dict] makes to field names, in order. *)
Definition assignments (fieldnames row : list string)
  : list (string * pyval) :=
  combine fieldnames (map PyStr row)
    ++ map (fun key => (key, PyNone)) (drop (length row) fieldnames).

(** ** Sample inputs *)

Module Sample.

Local Open Scope string_scope.
Local Open Scope list_scope.

(** [{'position': position, 'performance': performance}] *)
Definition staff (position performance : string) : record :=
  {[ Some "position" := PyStr position;
     Some "performance" := PyStr performance ]}.

(** A comma-separated file in utf-8 whose sample and rows parse: what
    the sniffer says of a header, and the rows, which are the same under
    the sniffed and the default dialect. *)
Definition utf8 (has_header : bool) (rows : list (list string)) : csv_file :=
  {| sniff_header := Text has_header;
     rows_sniffed := Text rows;
     rows_excel := Text rows;
     rows_cp1251 := Some rows |}.

(** The empty file: the sniffer finds no delimiter in it. *)
Definition empty_file : csv_file :=
  {| sniff_header := CsvError;
     rows_sniffed := CsvError;
     rows_excel := Text [];
     rows_cp1251 := Some [] |}.

(** The line [position,performance] alone. *)
Definition header_only_file : csv_file :=
  utf8 true [["position"; "performance"]].

(** The lines [position,performance] and [Developer,85.5]. *)
Definition one_row_file : csv_file :=
  utf8 true [["position"; "performance"]; ["Developer"; "85.5"]].

(** The lines [position,performance] and [Developer,n/a]. *)
Definition invalid_number_file : csv_file :=
  utf8 true [["position"; "performance"]; ["Developer"; "n/a"]].

(** The line [position,performance], nine lines [Developer,85.5] and
    the line [Developer]. *)
Definition short_row_file : csv_file :=
  utf8 true ((["position"; "performance"]
                :: replicate 9 ["Developer"; "85.5"])
               ++ [["Developer"]]).

(** The line [a,b], nine lines [1,2], then the lines [1,2,3] and [1]. *)
Definition ragged_file : csv_file :=
  utf8 true ((["a"; "b"] :: replicate 9 ["1"; "2"])
               ++ [["1"; "2"; "3"]; ["1"]]).

(** The lines [1,2] and [3,4]: the sniffer sees no header in them. *)
Definition numbers_file : csv_file :=
  utf8 false [["1"; "2"]; ["3"; "4"]].

(** [--files paths --report performance] *)
Definition command (paths : list string) : arguments :=
  {| files := paths;
     report_name := "performance";
     format := Table;
     list_reports_flag := false |}.

(** [float] of a decimal literal: [decimal m e] is [m * 10^e]. *)
Definition decimal (m e : Z) : PyFloat.float :=
  PyFloat.of_decimal false m e.

End Sample.


(** ** Further vocabulary *)

(** The positions of the valid records, each at its first occurrence;
    [seen] holds those met before. *)
Fixpoint first_positions (data : list record) (seen : list string)
  : list string :=
  match data with
  | [] => []
  | row :: rest =>
      match valid_sample row with
      | Some (position, _) =>
          if decide (position ∈ seen) then first_positions rest seen
          else position :: first_positions rest (seen ++ [position])
      | None => first_positions rest seen
      end
  end.

(** The rows of the report before they are sorted. *)
Definition unsorted_rows `{PyFloat.SumImpl} (data : list record)
  : list (list cell) :=
  map (fun key => [CStr key;
                   CFloat (PerformanceReport.avg_performance (samples data key))])
      (first_positions data []).

(** [x == y] on floats. *)
Definition float_eqb (x y : PyFloat.float) : bool := SFeqb x y.

(** The rows whose mean equals [v]. *)
Definition mean_is (v : PyFloat.float) (row : list cell) : bool :=
  match row with
  | [_; CFloat x] => float_eqb x v
  | _ => false
  end.

(** Neither is below the other. *)
Definition tied {A : Type} (lt : A -> A -> bool) (a x : A) : bool :=
  (negb (lt a x) && negb (lt x a))%bool.

(** The records of the files the paths name, file after file; a path
    that is not read without an error gives none. *)
Fixpoint records_of (fs : filesystem) (paths : list string) : list record :=
  match paths with
  | [] => []
  | path :: rest =>
      match fs !! path with
      | Some (File f) =>
          match CSVReader.read_file f with
          | Ok records => records ++ records_of fs rest
          | Raise _ => records_of fs rest
          end
      | _ => records_of fs rest
      end
  end.

(** No row after the first is shorter than the first, blank rows
    apart. *)
Definition full_rows (rows : list (list string)) : Prop :=
  match rows with
  | [] => True
  | fieldnames :: body =>
      Forall (fun row => row <> [] -> (length fieldnames <= length row)%nat) body
  end.

(** The rows of a file are full under every way of reading it. *)
Definition full_file (f : csv_file) : Prop :=
  (forall rows, rows_sniffed f = Text rows -> full_rows rows) /\
  (forall rows, rows_excel f = Text rows -> full_rows rows) /\
  (forall rows, rows_cp1251 f = Some rows -> full_rows rows).

(** The samples of the valid records, in the order of the records. *)
Definition valid_samples (data : list record)
  : list (string * PyFloat.float) :=
  omap valid_sample data.

(** * Proofs *)

(** * Facts about the sort *)

Section SortFacts.

Local Open Scope nat_scope.

Context {A : Type} (lt : A -> A -> bool) (P : A -> Prop).

Hypothesis lt_asym : forall x y, P x -> P y -> lt x y = true -> lt y x = false.
Hypothesis lt_cotrans : forall x y z, P x -> P y -> P z ->
  lt x z = true -> lt x y = true \/ lt y z = true.

Local Abbreviation upto := (upto lt P).
Local Abbreviation above := (above lt P).

Lemma upto_trans x y z : upto x y -> upto y z -> upto x z.
Proof using lt_cotrans.
  intros (Px & Py & Hxy) (_ & Pz & Hyz). repeat split; trivial.
  destruct (lt z x) eqn:Hzx; trivial.
  destruct (lt_cotrans z y x Pz Py Px Hzx); congruence.
Qed.

Lemma above_trans x y z : above x y -> above y z -> above x z.
Proof using lt_asym lt_cotrans.
  intros (Px & Py & Hxy) (_ & Pz & Hyz). repeat split; trivial.
  destruct (lt_cotrans z x y Pz Px Py Hyz) as [H|H]; trivial.
  rewrite (lt_asym y x Py Px Hxy) in H. discriminate.
Qed.

Lemma above_flip_upto x y : above x y -> upto y x.
Proof using lt_asym.
  intros (Px & Py & Hxy). repeat split; trivial. now apply lt_asym.
Qed.

Lemma upto_refl x : P x -> upto x x.
Proof using lt_asym.
  intros Px. repeat split; trivial.
  destruct (lt x x) eqn:E; trivial. now rewrite (lt_asym x x Px Px E) in E.
Qed.

(** ** The initial run *)

Lemma run_up_app prev l run rest :
  PyList.run_up lt prev l = (run, rest) -> l = run ++ rest.
Proof.
  revert prev run rest. induction l as [|x l IH]; simpl; intros prev run rest E.
  - now inversion E.
  - destruct (lt x prev).
    + now inversion E.
    + destruct (PyList.run_up lt x l) as [r t] eqn:Er.
      inversion E; subst. simpl. f_equal. eauto.
Qed.

Lemma run_down_app prev l run rest :
  PyList.run_down lt prev l = (run, rest) -> l = run ++ rest.
Proof.
  revert prev run rest. induction l as [|x l IH]; simpl; intros prev run rest E.
  - now inversion E.
  - destruct (lt x prev).
    + destruct (PyList.run_down lt x l) as [r t] eqn:Er.
      inversion E; subst. simpl. f_equal. eauto.
    + now inversion E.
Qed.

Lemma run_up_sorted prev l run rest :
  P prev -> Forall P l ->
  PyList.run_up lt prev l = (run, rest) -> Sorted upto (prev :: run).
Proof.
  revert prev run rest. induction l as [|x l IH]; simpl; intros prev run rest Pp Pl E.
  - inversion E. repeat constructor.
  - inversion Pl as [|? ? Px Pl']; subst.
    destruct (lt x prev) eqn:Hx.
    + inversion E. repeat constructor.
    + destruct (PyList.run_up lt x l) as [r t] eqn:Er.
      inversion E; subst. constructor.
      * eapply IH; eauto.
      * constructor. repeat split; trivial.
Qed.

Lemma run_down_sorted prev l run rest :
  P prev -> Forall P l ->
  PyList.run_down lt prev l = (run, rest) -> Sorted above (prev :: run).
Proof.
  revert prev run rest. induction l as [|x l IH]; simpl; intros prev run rest Pp Pl E.
  - inversion E. repeat constructor.
  - inversion Pl as [|? ? Px Pl']; subst.
    destruct (lt x prev) eqn:Hx.
    + destruct (PyList.run_down lt x l) as [r t] eqn:Er.
      inversion E; subst. constructor.
      * eapply IH; eauto.
      * constructor. repeat split; trivial.
    + inversion E. repeat constructor.
Qed.

Lemma strongly_sorted_rev (R : A -> A -> Prop) l :
  StronglySorted R l -> StronglySorted (fun x y => R y x) (rev l).
Proof.
  induction 1 as [|x l Hl IH Hx]; simpl.
  - constructor.
  - apply StronglySorted_app. repeat split.
    + intros a b Ha Hb. apply list_elem_of_singleton in Hb as ->.
      rewrite Forall_forall in Hx. apply Hx.
      apply list_elem_of_In, in_rev. now apply list_elem_of_In.
    + exact IH.
    + repeat constructor.
Qed.

Lemma strongly_sorted_weaken (R S : A -> A -> Prop) l :
  (forall x y, R x y -> S x y) -> StronglySorted R l -> StronglySorted S l.
Proof.
  intros HRS. induction 1 as [|x l Hl IH Hx]; constructor; trivial.
  eapply Forall_impl; [exact Hx|]. auto.
Qed.

Lemma count_run_app l run rest :
  PyList.count_run lt l = (run, rest) -> Permutation (run ++ rest) l.
Proof.
  unfold PyList.count_run. destruct l as [|x [|y l]]; intros E.
  - inversion E. reflexivity.
  - inversion E. reflexivity.
  - destruct (lt y x).
    + destruct (PyList.run_down lt y l) as [r t] eqn:Er.
      injection E as <- <-. apply run_down_app in Er as ->.
      change (x :: y :: r ++ t) with ((x :: y :: r) ++ t).
      apply Permutation_app_tail. symmetry. apply Permutation_rev.
    + destruct (PyList.run_up lt y l) as [r t] eqn:Er.
      injection E as <- <-. apply run_up_app in Er as ->. reflexivity.
Qed.

Lemma count_run_sorted l run rest :
  Forall P l ->
  PyList.count_run lt l = (run, rest) -> StronglySorted upto run.
Proof using lt_asym lt_cotrans.
  unfold PyList.count_run. destruct l as [|x [|y l]]; intros Pl E.
  - inversion E. constructor.
  - inversion E. repeat constructor.
  - inversion Pl as [|? ? Px Pl']; subst. inversion Pl' as [|? ? Py Pl'']; subst.
    destruct (lt y x) eqn:Hyx.
    + destruct (PyList.run_down lt y l) as [r t] eqn:Er.
      injection E as <- <-. apply run_down_sorted in Er; trivial.
      assert (Hs : StronglySorted above (x :: y :: r)).
      { apply Sorted_StronglySorted.
        - intros a b c. apply above_trans.
        - constructor; trivial. constructor. repeat split; trivial. }
      apply strongly_sorted_rev in Hs.
      eapply strongly_sorted_weaken; [|exact Hs].
      intros a b. apply above_flip_upto.
    + destruct (PyList.run_up lt y l) as [r t] eqn:Er.
      injection E as <- <-. apply run_up_sorted in Er; trivial.
      apply Sorted_StronglySorted.
      * intros a b c. apply upto_trans.
      * constructor; trivial. constructor. repeat split; trivial.
Qed.

(** ** The binary search and the insertions *)

Lemma strongly_sorted_lookup (R : A -> A -> Prop) l i j x y :
  StronglySorted R l -> i < j -> l !! i = Some x -> l !! j = Some y -> R x y.
Proof.
  intros Hs. revert i j. induction Hs as [|a l Hl IH Ha]; intros i j Hij Hi Hj.
  - discriminate.
  - destruct j as [|j]; [lia|]. destruct i as [|i]; simpl in *.
    + inversion Hi; subst. rewrite Forall_forall in Ha. apply Ha.
      eapply list_elem_of_lookup_2; eauto.
    + eapply (IH i j); eauto. lia.
Qed.

Lemma bisect_step fuel a pivot l r :
  PyList.bisect lt (S fuel) a pivot l r =
  if r <=? l then l
  else match a !! (l + (r - l) / 2) with
       | Some y =>
           if lt pivot y then PyList.bisect lt fuel a pivot l (l + (r - l) / 2)
           else PyList.bisect lt fuel a pivot (S (l + (r - l) / 2)) r
       | None => l
       end.
Proof. reflexivity. Qed.

Lemma bisect_spec fuel a pivot l r :
  StronglySorted upto a -> Forall P a -> P pivot ->
  l <= r -> r <= length a -> r - l <= fuel ->
  (forall i y, i < l -> a !! i = Some y -> lt pivot y = false) ->
  (forall i y, r <= i -> a !! i = Some y -> lt pivot y = true) ->
  let k := PyList.bisect lt fuel a pivot l r in
  k <= length a /\
  (forall i y, i < k -> a !! i = Some y -> lt pivot y = false) /\
  (forall i y, k <= i -> a !! i = Some y -> lt pivot y = true).
Proof using lt_cotrans.
  intros Hs Pa Pp. revert l r.
  induction fuel as [|fuel IH]; intros l r Hlr Hr Hf Hlo Hhi.
  - simpl. assert (l = r) as -> by lia. auto.
  - rewrite bisect_step. destruct (Nat.leb_spec r l) as [Hle|Hlt].
    + assert (l = r) as -> by lia. auto.
    + set (p := l + (r - l) / 2).
      assert (Hp : l <= p < r).
      { unfold p. pose proof (Nat.div_lt (r - l) 2). lia. }
      destruct (lookup_lt_is_Some_2 a p) as [y Hy]; [lia|].
      rewrite Hy.
      assert (Py : P y).
      { rewrite Forall_forall in Pa. eapply Pa, list_elem_of_lookup_2; eauto. }
      destruct (lt pivot y) eqn:Hpy.
      * apply IH; try lia; trivial.
        intros i z Hi Hz.
        destruct (Nat.eq_dec i p) as [->|Hne]; [congruence|].
        assert (Hyz : upto y z) by (eapply (strongly_sorted_lookup upto a p i); eauto; lia).
        destruct Hyz as (_ & Pz & Hzy).
        destruct (lt_cotrans pivot z y Pp Pz Py Hpy); congruence.
      * apply IH; try lia; trivial.
        intros i z Hi Hz.
        destruct (Nat.eq_dec i p) as [->|Hne]; [congruence|].
        assert (Hzy : upto z y) by (eapply (strongly_sorted_lookup upto a i p); eauto; lia).
        destruct Hzy as (Pz & _ & Hyz).
        destruct (lt pivot z) eqn:Hpz; trivial.
        destruct (lt_cotrans pivot y z Pp Py Pz Hpz); congruence.
Qed.

Lemma insert_perm (a : list A) k x :
  Permutation (take k a ++ x :: drop k a) (x :: a).
Proof.
  rewrite <- (take_drop k a) at 3. symmetry. apply Permutation_middle.
Qed.

Lemma insert_sorted a pivot :
  StronglySorted upto a -> Forall P a -> P pivot ->
  StronglySorted upto
    (take (PyList.insert_point lt a pivot) a
       ++ pivot :: drop (PyList.insert_point lt a pivot) a).
Proof using lt_asym lt_cotrans.
  intros Hs Pa Pp. unfold PyList.insert_point.
  destruct (bisect_spec (length a) a pivot 0 (length a)) as (Hk & Hlo & Hhi);
    trivial; try lia.
  { intros i y Hi Hy. apply lookup_lt_Some in Hy. lia. }
  set (k := PyList.bisect lt (length a) a pivot 0 (length a)) in *.
  assert (Hel : forall y, y ∈ a -> P y) by (now apply Forall_forall).
  rewrite <- (take_drop k a) in Hs. apply StronglySorted_app in Hs as (Hx & Ht & Hd).
  apply StronglySorted_app. split; [|split]; trivial.
  - intros x y Hxin Hyin. apply elem_of_cons in Hyin as [->|Hyin]; [|auto].
    apply elem_of_take in Hxin as (i & Hi & Hlt).
    repeat split; trivial; eauto using list_elem_of_lookup_2.
  - apply StronglySorted_cons. split; trivial.
    apply Forall_forall. intros y Hy.
    apply list_elem_of_lookup_1 in Hy as (i & Hi). rewrite lookup_drop in Hi.
    assert (Py : P y) by eauto using list_elem_of_lookup_2.
    repeat split; trivial. apply lt_asym; trivial. eapply Hhi; [|exact Hi]. lia.
Qed.

Lemma binarysort_perm sorted rest :
  Permutation (PyList.binarysort lt sorted rest) (sorted ++ rest).
Proof.
  revert sorted. induction rest as [|x rest IH]; intros sorted; simpl.
  - now rewrite app_nil_r.
  - rewrite IH, insert_perm. simpl. apply Permutation_middle.
Qed.

Lemma binarysort_sorted sorted rest :
  StronglySorted upto sorted -> Forall P sorted -> Forall P rest ->
  StronglySorted upto (PyList.binarysort lt sorted rest).
Proof using lt_asym lt_cotrans.
  revert sorted. induction rest as [|x rest IH]; intros sorted Hs Ps Pr; simpl.
  - exact Hs.
  - inversion Pr as [|? ? Px Pr']; subst. apply IH; trivial.
    + now apply insert_sorted.
    + rewrite insert_perm. now constructor.
Qed.

Lemma sort_perm l : Permutation (PyList.sort lt l) l.
Proof.
  unfold PyList.sort. destruct (PyList.count_run lt l) as [run rest] eqn:E.
  rewrite binarysort_perm. now apply count_run_app.
Qed.

Lemma sort_sorted l : Forall P l -> StronglySorted upto (PyList.sort lt l).
Proof using lt_asym lt_cotrans.
  intros Pl. unfold PyList.sort.
  destruct (PyList.count_run lt l) as [run rest] eqn:E.
  assert (Hp : Forall P (run ++ rest)) by (now rewrite (count_run_app _ _ _ E)).
  apply Forall_app in Hp as [Prun Prest].
  apply binarysort_sorted; trivial.
  apply (count_run_sorted l run rest Pl E).
Qed.

Lemma sort_reverse_perm l : Permutation (PyList.sort_reverse lt l) l.
Proof.
  unfold PyList.sort_reverse.
  now rewrite <- Permutation_rev, sort_perm, <- Permutation_rev.
Qed.

(** With [reverse=True] no element is followed by a larger one. *)
Lemma sort_reverse_sorted l :
  Forall P l ->
  StronglySorted (fun x y => lt x y = false) (PyList.sort_reverse lt l).
Proof using lt_asym lt_cotrans.
  intros Pl. unfold PyList.sort_reverse.
  eapply strongly_sorted_weaken; [|apply strongly_sorted_rev, sort_sorted].
  - intros x y (_ & _ & H). exact H.
  - now rewrite <- Permutation_rev.
Qed.

End SortFacts.

(** * The order of binary64 values *)

Section FloatOrder.

Local Open Scope Z_scope.

Lemma ltb_rank x y :
  PyFloat.is_nan x = false -> PyFloat.is_nan y = false ->
  PyFloat.ltb x y = true <-> lex_lt (rank x) (rank y).
Proof.
  unfold PyFloat.ltb, SFltb, lex_lt.
  destruct x as [sx|sx| |sx mx ex], y as [sy|sy| |sy my ey];
    try discriminate; intros _ _;
    try destruct sx; try destruct sy; simpl;
    try (split; [discriminate | lia]);
    try (split; [lia | reflexivity]);
    try (split; [intros _; lia | reflexivity]).
  - change (Pos.compare_cont Eq mx my) with (Pos.compare mx my).
    destruct (Z.compare_spec ex ey), (Pos.compare_spec mx my); simpl;
      split; try discriminate; try reflexivity; lia.
  - change (Pos.compare_cont Eq mx my) with (Pos.compare mx my).
    destruct (Z.compare_spec ex ey), (Pos.compare_spec mx my); simpl;
      split; try discriminate; try reflexivity; lia.
Qed.

Lemma ltb_asym x y :
  PyFloat.is_nan x = false -> PyFloat.is_nan y = false ->
  PyFloat.ltb x y = true -> PyFloat.ltb y x = false.
Proof.
  intros Hx Hy H. apply (ltb_rank x y Hx Hy) in H.
  destruct (PyFloat.ltb y x) eqn:E; trivial.
  apply (ltb_rank y x Hy Hx) in E. unfold lex_lt in *. lia.
Qed.

Lemma ltb_cotrans x y z :
  PyFloat.is_nan x = false -> PyFloat.is_nan y = false ->
  PyFloat.is_nan z = false ->
  PyFloat.ltb x z = true -> PyFloat.ltb x y = true \/ PyFloat.ltb y z = true.
Proof.
  intros Hx Hy Hz H. apply (ltb_rank x z Hx Hz) in H.
  rewrite (ltb_rank x y Hx Hy), (ltb_rank y z Hy Hz). unfold lex_lt in *. lia.
Qed.

(** Without NaN, [x < y] fails exactly when [y <= x]. *)
Lemma ltb_false_leb x y :
  PyFloat.is_nan x = false -> PyFloat.is_nan y = false ->
  PyFloat.ltb x y = false <-> PyFloat.leb y x = true.
Proof.
  unfold PyFloat.ltb, PyFloat.leb, SFltb, SFleb.
  destruct x as [sx|sx| |sx mx ex], y as [sy|sy| |sy my ey];
    try discriminate; intros _ _;
    try destruct sx; try destruct sy; simpl; try tauto;
    try (split; congruence).
  - change (Pos.compare_cont Eq mx my) with (Pos.compare mx my).
    change (Pos.compare_cont Eq my mx) with (Pos.compare my mx).
    rewrite (Z.compare_antisym ex ey), (Pos.compare_antisym mx my).
    destruct (ex ?= ey), (mx ?= my)%positive; simpl; split; congruence.
  - change (Pos.compare_cont Eq mx my) with (Pos.compare mx my).
    change (Pos.compare_cont Eq my mx) with (Pos.compare my mx).
    rewrite (Z.compare_antisym ex ey), (Pos.compare_antisym mx my).
    destruct (ex ?= ey), (mx ?= my)%positive; simpl; split; congruence.
Qed.

End FloatOrder.

(** * Facts about the report *)

Section ReportFacts.

Context `{PyFloat.SumImpl}.

Import PerformanceReport.

Local Open Scope nat_scope.

(** ** One row *)

Lemma get_strip_string (row : record) key :
  is_str (default (PyStr "") (row !! Some key)) = true ->
  get_strip row key = Ok (default EmptyString (field row key)).
Proof.
  unfold get_strip, field. destruct (row !! Some key) as [[s| |l]|]; simpl;
    try discriminate; reflexivity.
Qed.

Lemma get_strip_other (row : record) key :
  is_str (default (PyStr "") (row !! Some key)) = false ->
  get_strip row key = Raise AttributeError.
Proof.
  unfold get_strip. destruct (row !! Some key) as [[s| |l]|]; simpl;
    try discriminate; reflexivity.
Qed.

Lemma row_sample_string row :
  string_fields row -> row_sample row = Ok (valid_sample row).
Proof.
  intros [Hp Hq]. unfold row_sample, valid_sample.
  rewrite (get_strip_string _ _ Hp), (get_strip_string _ _ Hq). simpl.
  unfold field.
  destruct (row !! Some "position"%string) as [[p| |lp]|];
    destruct (row !! Some "performance"%string) as [[q| |lq]|];
    simpl in *; try discriminate; try reflexivity.
  - destruct (PyStr.truthy (PyStr.strip p) && PyStr.truthy (PyStr.strip q))%bool;
      [|reflexivity].
    now destruct (PyFloat.of_string (PyStr.strip q)).
  - now rewrite andb_false_r.
Qed.

Lemma row_sample_other row :
  ~ string_fields row -> row_sample row = Raise AttributeError.
Proof.
  intros Hn. unfold row_sample.
  destruct (is_str (default (PyStr "") (row !! Some "position"%string))) eqn:Hp.
  - rewrite (get_strip_string _ _ Hp). simpl.
    destruct (is_str (default (PyStr "") (row !! Some "performance"%string))) eqn:Hq.
    + destruct Hn. now split.
    + now rewrite (get_strip_other _ _ Hq).
  - now rewrite (get_strip_other _ _ Hp).
Qed.

Lemma string_fields_dec row : string_fields row \/ ~ string_fields row.
Proof.
  unfold string_fields.
  destruct (is_str (default (PyStr "") (row !! Some "position"%string)));
    destruct (is_str (default (PyStr "") (row !! Some "performance"%string)));
    intuition congruence.
Qed.

(** ** The first loop *)

Lemma collect_string data position_data :
  Forall string_fields data ->
  collect data position_data = Ok (fold_left add_row data position_data).
Proof.
  intros Hd. revert position_data.
  induction Hd as [|row data Hrow _ IH]; intros position_data; simpl.
  - reflexivity.
  - rewrite (row_sample_string _ Hrow). simpl. unfold add_row.
    destruct (valid_sample row) as [[p v]|]; apply IH.
Qed.

Lemma collect_other data position_data :
  ~ Forall string_fields data ->
  collect data position_data = Raise AttributeError.
Proof.
  revert position_data. induction data as [|row data IH]; intros position_data Hn.
  - destruct Hn. constructor.
  - simpl. destruct (string_fields_dec row) as [Hrow|Hrow].
    + rewrite (row_sample_string _ Hrow). simpl.
      assert (Hd : ~ Forall string_fields data).
      { intros Hd. apply Hn. now constructor. }
      destruct (valid_sample row) as [[p v]|]; now apply IH.
    + now rewrite (row_sample_other _ Hrow).
Qed.

Lemma all_string_fields_dec data :
  Forall string_fields data \/ ~ Forall string_fields data.
Proof.
  induction data as [|row data [IH|IH]].
  - left. constructor.
  - destruct (string_fields_dec row) as [Hr|Hr].
    + left. now constructor.
    + right. intros Hd. inversion Hd; subst. contradiction.
  - right. intros Hd. inversion Hd; subst. contradiction.
Qed.

Lemma collect_inversion data position_data result :
  collect data position_data = Ok result ->
  Forall string_fields data /\ result = fold_left add_row data position_data.
Proof.
  intros E. destruct (all_string_fields_dec data) as [Hd|Hd].
  - split; trivial. rewrite (collect_string _ _ Hd) in E. congruence.
  - rewrite (collect_other _ _ Hd) in E. discriminate.
Qed.

(** ** The dictionary of samples *)

Lemma entry_append p v position_data key :
  entry (append_sample p v position_data) key =
  if String.eqb p key then entry position_data key ++ [v]
  else entry position_data key.
Proof.
  induction position_data as [|[k vs] tl IH]; simpl.
  - reflexivity.
  - destruct (String.eqb_spec k p) as [->|Hkp]; simpl.
    + destruct (String.eqb p key); reflexivity.
    + destruct (String.eqb_spec k key) as [->|Hkk].
      * destruct (String.eqb_spec p key) as [->|]; [congruence|reflexivity].
      * exact IH.
Qed.

Lemma keys_append p v position_data :
  map fst (append_sample p v position_data) =
  if decide (p ∈ map fst position_data) then map fst position_data
  else map fst position_data ++ [p].
Proof.
  induction position_data as [|[k vs] tl IH]; simpl.
  - destruct (decide (p ∈ [])) as [Hin|_]; [inversion Hin|reflexivity].
  - destruct (String.eqb_spec k p) as [->|Hkp]; simpl.
    + destruct (decide (p ∈ p :: map fst tl)) as [_|Hn]; [reflexivity|].
      destruct Hn. left.
    + rewrite IH. destruct (decide (p ∈ map fst tl)) as [Hin|Hn];
        destruct (decide (p ∈ k :: map fst tl)) as [Hin'|Hn']; trivial.
      * destruct Hn'. now right.
      * apply elem_of_cons in Hin' as [->|]; congruence.
Qed.

Lemma well_formed_append p v position_data :
  well_formed position_data -> well_formed (append_sample p v position_data).
Proof.
  intros [Hk Hn]. split.
  - rewrite keys_append. destruct (decide (p ∈ map fst position_data)); trivial.
    apply NoDup_app. repeat split; trivial.
    + intros x Hx Hp. apply list_elem_of_singleton in Hp as ->. contradiction.
    + apply NoDup_singleton.
  - clear Hk. induction Hn as [|[k vs] tl Hx Htl IH]; simpl.
    + repeat constructor. discriminate.
    + destruct (String.eqb k p); constructor; trivial.
      simpl. now destruct vs.
Qed.

Lemma well_formed_fold data position_data :
  well_formed position_data -> well_formed (fold_left add_row data position_data).
Proof.
  revert position_data. induction data as [|row data IH]; intros pd Hw; simpl.
  - exact Hw.
  - apply IH. unfold add_row. destruct (valid_sample row) as [[p v]|]; trivial.
    now apply well_formed_append.
Qed.

Lemma well_formed_nil : well_formed [].
Proof. split; constructor. Qed.

Lemma samples_cons row data key :
  samples (row :: data) key =
  match valid_sample row with
  | Some (p, v) => if String.eqb p key then v :: samples data key
                   else samples data key
  | None => samples data key
  end.
Proof.
  unfold samples. simpl. destruct (valid_sample row) as [[p v]|]; trivial.
  now destruct (String.eqb p key).
Qed.

Lemma entry_fold data position_data key :
  entry (fold_left add_row data position_data) key =
  entry position_data key ++ samples data key.
Proof.
  revert position_data. induction data as [|row data IH]; intros pd.
  - simpl. now rewrite app_nil_r.
  - cbn [fold_left]. rewrite IH, samples_cons. unfold add_row.
    destruct (valid_sample row) as [[p v]|]; trivial.
    rewrite entry_append. destruct (String.eqb p key); trivial.
    now rewrite <- app_assoc.
Qed.

Lemma entry_elem_of position_data key performances :
  NoDup (map fst position_data) ->
  (key, performances) ∈ position_data -> entry position_data key = performances.
Proof.
  induction position_data as [|[k vs] tl IH]; simpl; intros Hk Hin.
  - inversion Hin.
  - apply NoDup_cons in Hk as [Hk Htl].
    apply elem_of_cons in Hin as [E|Hin].
    + injection E as <- <-. now rewrite String.eqb_refl.
    + destruct (String.eqb_spec k key) as [->|_]; [|auto].
      destruct Hk. apply (list_elem_of_fmap_2 fst) in Hin. exact Hin.
Qed.

Lemma elem_of_entry position_data key :
  entry position_data key <> [] ->
  (key, entry position_data key) ∈ position_data.
Proof.
  induction position_data as [|[k vs] tl IH]; simpl; intros Hne.
  - congruence.
  - destruct (String.eqb_spec k key) as [->|_]; [left|right; auto].
Qed.

(** ** The second loop *)

Lemma report_rows_map position_data :
  Forall (fun e => snd e <> []) position_data ->
  report_rows position_data =
  map (fun e => (fst e, avg_performance (snd e))) position_data.
Proof.
  induction 1 as [|[k vs] tl Hx Htl IH]; simpl; trivial.
  destruct vs; [now destruct Hx|]. now rewrite IH.
Qed.

Lemma report_rows_keys position_data :
  Forall (fun e => snd e <> []) position_data ->
  map fst (report_rows position_data) = map fst position_data.
Proof.
  intros Hn. rewrite (report_rows_map _ Hn), map_map. reflexivity.
Qed.

Lemma elem_of_report_rows data key v :
  (key, v) ∈ report_rows (fold_left add_row data []) <->
  samples data key <> [] /\ v = avg_performance (samples data key).
Proof.
  destruct (well_formed_fold data [] well_formed_nil) as [Hk Hn].
  rewrite (report_rows_map _ Hn).
  pose proof (entry_fold data [] key) as He. simpl in He.
  split.
  - intros Hin. apply list_elem_of_In, in_map_iff in Hin as ([k vs] & E & Hin).
    simpl in E. injection E as E1 E2. subst k v. apply list_elem_of_In in Hin.
    rewrite Forall_forall in Hn. pose proof (Hn _ Hin) as Hne. simpl in Hne.
    apply (entry_elem_of _ _ _ Hk) in Hin. rewrite He in Hin. now subst vs.
  - intros [Hne ->]. rewrite <- He in *.
    apply list_elem_of_In, in_map_iff. exists (key, entry (fold_left add_row data []) key).
    split; trivial. apply list_elem_of_In. now apply elem_of_entry.
Qed.

End ReportFacts.

Section ReportClaims.

Context `{PyFloat.SumImpl}.

Import PerformanceReport.

Local Open Scope nat_scope.

Lemma generate_string data :
  Forall string_fields data ->
  generate data =
  Ok (headers, map row_cells (sort_rows (report_rows (fold_left add_row data [])))).
Proof.
  intros Hd. unfold generate. now rewrite (collect_string _ _ Hd).
Qed.

Lemma generate_inversion data hs rows :
  generate data = Ok (hs, rows) ->
  Forall string_fields data /\ hs = headers /\
  rows = map row_cells (sort_rows (report_rows (fold_left add_row data []))).
Proof.
  unfold generate. destruct (collect data []) as [pd|e] eqn:E; simpl; [|discriminate].
  intros E'. injection E' as <- <-.
  apply collect_inversion in E as [Hd ->]. auto.
Qed.

Lemma sort_rows_perm rows : Permutation (sort_rows rows) rows.
Proof. apply sort_reverse_perm. Qed.

Lemma elem_of_row_cells rows key v :
  [CStr key; CFloat v] ∈ map row_cells rows <-> (key, v) ∈ rows.
Proof.
  rewrite !list_elem_of_In, in_map_iff. split.
  - intros ([k x] & E & Hin). injection E as -> ->. exact Hin.
  - intros Hin. now exists (key, v).
Qed.

Lemma lookup_row_cells rows i key v :
  map row_cells rows !! i = Some [CStr key; CFloat v] -> rows !! i = Some (key, v).
Proof.
  revert i. induction rows as [|[k x] rows IH]; intros [|i]; simpl; try discriminate.
  - intros E. injection E as -> ->. reflexivity.
  - apply IH.
Qed.

Lemma sort_rows_sorted rows :
  Forall (fun e => PyFloat.is_nan (snd e) = false) rows ->
  StronglySorted (fun x y => PyFloat.ltb (snd x) (snd y) = false) (sort_rows rows).
Proof.
  intros Hn. unfold sort_rows.
  apply (sort_reverse_sorted _ (fun e => PyFloat.is_nan (snd e) = false)); trivial.
  - intros x y. apply ltb_asym.
  - intros x y z. apply ltb_cotrans.
Qed.

Lemma first_cells_nodup rows :
  NoDup (map fst rows) ->
  NoDup (map (fun row : list cell => row !! 0) (map row_cells rows)).
Proof.
  intros Hk. rewrite map_map. simpl.
  replace (map (fun x => Some (CStr (fst x))) rows)
    with (map (fun k => Some (CStr k)) (map fst rows)) by (now rewrite map_map).
  assert (Hinj : Inj eq eq (fun k : string => Some (CStr k))).
  { intros a b E. now injection E. }
  now apply (NoDup_fmap_2 (fun k => Some (CStr k))).
Qed.

Lemma sorted_keys_nodup data :
  NoDup (map fst (sort_rows (report_rows (fold_left add_row data [])))).
Proof.
  destruct (well_formed_fold data [] well_formed_nil) as [Hk Hn].
  rewrite (Permutation_map fst (sort_rows_perm _)).
  now rewrite (report_rows_keys _ Hn).
Qed.

(** X20: on records whose two fields are strings the report has the
    fixed headers, its rows are exactly the pairs of a trimmed position
    that has a valid sample and the rounded mean of its samples, each
    position once, and the rows descend when no mean is NaN. *)
Theorem generate_rows data :
  Forall string_fields data ->
  exists rows,
    generate data = Ok (["Position"; "Avg Performance"]%string, rows) /\
    Forall (fun row => exists key v, row = [CStr key; CFloat v]) rows /\
    NoDup (map (fun row : list cell => row !! 0) rows) /\
    (forall key v,
       [CStr key; CFloat v] ∈ rows <->
       samples data key <> [] /\
       v = PyFloat.round2 (PyFloat.average (samples data key))) /\
    ((forall key v, [CStr key; CFloat v] ∈ rows -> PyFloat.is_nan v = false) ->
     descending rows).
Proof.
  intros Hd. eexists. split; [apply (generate_string _ Hd)|].
  set (sorted := sort_rows (report_rows (fold_left add_row data []))).
  split; [|split; [|split]].
  - apply Forall_forall. intros row Hrow.
    apply list_elem_of_In, in_map_iff in Hrow as ([k v] & <- & _). now exists k, v.
  - apply first_cells_nodup, sorted_keys_nodup.
  - intros key v. rewrite elem_of_row_cells. unfold sorted.
    rewrite (sort_rows_perm _). apply elem_of_report_rows.
  - intros Hnan i j ki vi kj vj Hij Hi Hj.
    assert (Hs : Forall (fun e => PyFloat.is_nan (snd e) = false)
                        (report_rows (fold_left add_row data []))).
    { apply Forall_forall. intros [k v] Hin. apply (Hnan k).
      apply elem_of_row_cells. fold sorted. unfold sorted.
      now rewrite (sort_rows_perm _). }
    apply sort_rows_sorted in Hs. fold sorted in Hs.
    pose proof (list_elem_of_lookup_2 _ _ _ Hi) as Hvi.
    pose proof (list_elem_of_lookup_2 _ _ _ Hj) as Hvj.
    apply Hnan in Hvi, Hvj.
    apply lookup_row_cells in Hi, Hj.
    apply ltb_false_leb; trivial.
    apply (strongly_sorted_lookup _ _ _ _ _ _ Hs Hij Hi Hj).
Qed.

(** C7: each row of a returned report is as long as the headers, and no
    two rows start with the same position. *)
Theorem report_invariants data hs rows :
  generate data = Ok (hs, rows) ->
  Forall (fun row => length row = length hs) rows /\
  NoDup (map (fun row : list cell => row !! 0) rows).
Proof.
  intros E. apply generate_inversion in E as (_ & -> & ->). split.
  - apply Forall_forall. intros row Hrow.
    apply list_elem_of_In, in_map_iff in Hrow as ([k v] & <- & _). reflexivity.
  - apply first_cells_nodup, sorted_keys_nodup.
Qed.

(** C10: [generate] returns a report on every list of records whose
    ['position'] and ['performance'] values are strings, and on no
    other list: there it stops with an [AttributeError]. *)
Theorem generate_total data :
  (Forall string_fields data ->
   exists rows, generate data = Ok (headers, rows)) /\
  (~ Forall string_fields data -> generate data = Raise AttributeError).
Proof.
  split.
  - intros Hd. eexists. apply (generate_string _ Hd).
  - intros Hn. unfold generate. now rewrite (collect_other _ _ Hn).
Qed.

End ReportClaims.

Section Repetition.

Context `{PyFloat.SumImpl}.

Import PerformanceReport.

Local Open Scope nat_scope.

Lemma key_elem_of_entry position_data key :
  Forall (fun e => snd e <> []) position_data ->
  key ∈ map fst position_data <-> entry position_data key <> [].
Proof.
  intros Hn. split.
  - induction Hn as [|[k vs] tl Hx Htl IH]; simpl; intros Hin.
    + inversion Hin.
    + destruct (String.eqb_spec k key) as [->|Hne]; trivial.
      apply elem_of_cons in Hin as [->|Hin]; [congruence|auto].
  - intros Hne. apply elem_of_entry in Hne.
    apply (list_elem_of_fmap_2 fst) in Hne. exact Hne.
Qed.

Lemma samples_cons_nonempty row data key :
  samples data key <> [] -> samples (row :: data) key <> [].
Proof.
  rewrite samples_cons. destruct (valid_sample row) as [[p v]|]; trivial.
  destruct (String.eqb p key); trivial. discriminate.
Qed.

Lemma keys_fold_present data position_data :
  (forall key, samples data key <> [] -> key ∈ map fst position_data) ->
  map fst (fold_left add_row data position_data) = map fst position_data.
Proof.
  revert position_data. induction data as [|row data IH]; intros pd Hin.
  - reflexivity.
  - cbn [fold_left].
    assert (Hk : map fst (add_row pd row) = map fst pd).
    { unfold add_row. destruct (valid_sample row) as [[p v]|] eqn:E; trivial.
      rewrite keys_append. destruct (decide (p ∈ map fst pd)) as [_|Hn]; trivial.
      destruct Hn. apply Hin. rewrite samples_cons, E, String.eqb_refl. discriminate. }
    rewrite IH, Hk; trivial.
    intros key Hne. rewrite Hk. now apply Hin, samples_cons_nonempty.
Qed.

Lemma canonical position_data :
  NoDup (map fst position_data) ->
  position_data = map (fun k => (k, entry position_data k)) (map fst position_data).
Proof.
  induction position_data as [|[k vs] tl IH]; simpl; intros Hk.
  - reflexivity.
  - apply NoDup_cons in Hk as [Hk Htl]. rewrite String.eqb_refl. f_equal.
    rewrite (IH Htl) at 1. apply map_ext_in. intros k' Hin.
    destruct (String.eqb_spec k k') as [->|_]; trivial.
    destruct Hk. now apply list_elem_of_In.
Qed.

Lemma fold_twice data :
  fold_left add_row (data ++ data) [] =
  map (fun e => (fst e, snd e ++ snd e)) (fold_left add_row data []).
Proof.
  rewrite fold_left_app.
  set (once := fold_left add_row data []).
  assert (Hw : well_formed once) by apply well_formed_fold, well_formed_nil.
  assert (He : forall key, entry once key = samples data key)
    by (intros key; apply (entry_fold data [] key)).
  assert (Hk : map fst (fold_left add_row data once) = map fst once).
  { apply keys_fold_present. intros key Hne.
    apply (key_elem_of_entry _ _ (proj2 Hw)). now rewrite He. }
  destruct (well_formed_fold data once Hw) as [Hk2 _].
  rewrite (canonical _ Hk2), Hk.
  transitivity (map (fun e : string * list PyFloat.float => (fst e, snd e ++ snd e))
                    (map (fun k => (k, entry once k)) (map fst once))).
  - rewrite !map_map. simpl. apply List.map_ext. intros e.
    now rewrite entry_fold, He.
  - now rewrite <- (canonical once (proj1 Hw)).
Qed.

(** C9, as amended: read twice, every group holds each of its samples
    twice, and the report is the same as soon as the rounded mean of
    each doubled group equals the one of the group. *)
Theorem generate_twice data :
  Forall string_fields data ->
  exists position_data,
    collect data [] = Ok position_data /\
    collect (data ++ data) [] =
      Ok (map (fun e => (fst e, snd e ++ snd e)) position_data) /\
    ((forall key performances,
        (key, performances) ∈ position_data ->
        avg_performance (performances ++ performances)
        = avg_performance performances) ->
     generate (data ++ data) = generate data).
Proof.
  intros Hd. exists (fold_left add_row data []).
  assert (Hdd : Forall string_fields (data ++ data)) by (now apply Forall_app).
  split; [apply (collect_string _ _ Hd)|].
  split; [rewrite (collect_string _ _ Hdd); f_equal; apply fold_twice|].
  intros Heq. rewrite (generate_string _ Hdd), (generate_string _ Hd), fold_twice.
  destruct (well_formed_fold data [] well_formed_nil) as [_ Hn].
  assert (Hr : report_rows (map (fun e => (fst e, snd e ++ snd e))
                                (fold_left add_row data []))
               = report_rows (fold_left add_row data [])); [|now rewrite Hr].
  rewrite !report_rows_map; trivial.
  - rewrite map_map. simpl. apply map_ext_in. intros [k vs] Hin. simpl.
    f_equal. apply (Heq k). now apply list_elem_of_In.
  - apply Forall_forall. intros e Hin.
    apply list_elem_of_In, in_map_iff in Hin as ([k vs] & <- & Hin). simpl.
    rewrite Forall_forall in Hn. apply list_elem_of_In in Hin.
    specialize (Hn _ Hin). simpl in Hn. now destruct vs.
Qed.

(** ** Invalid records are passed over *)

Lemma fold_valid data position_data :
  fold_left add_row (List.filter is_valid data) position_data =
  fold_left add_row data position_data.
Proof.
  revert position_data. induction data as [|row data IH]; intros pd; simpl.
  - reflexivity.
  - assert (Hv : is_valid row = false -> add_row pd row = pd).
    { unfold is_valid, add_row. now destruct (valid_sample row) as [[p v]|]. }
    destruct (is_valid row); simpl.
    + apply IH.
    + rewrite Hv; trivial.
Qed.

(** Among records whose two fields are strings, the report of a list is
    the report of its valid records. *)
Lemma generate_valid data :
  Forall string_fields data ->
  generate data = generate (List.filter is_valid data).
Proof.
  intros Hd.
  assert (Hf : Forall string_fields (List.filter is_valid data)).
  { apply Forall_forall. intros row Hin. rewrite Forall_forall in Hd.
    apply Hd. apply list_elem_of_In, filter_In in Hin as [Hin _].
    now apply list_elem_of_In. }
  now rewrite (generate_string _ Hd), (generate_string _ Hf), fold_valid.
Qed.

End Repetition.

(** * Facts about ingestion *)

Section DictReaderFacts.

Local Open Scope nat_scope.

Import DictReader.

Lemma fold_put_absent (kvs : list (string * pyval)) (d : record) key :
  (forall v, (key, v) ∉ kvs) ->
  fold_left put kvs d !! Some key = d !! Some key.
Proof.
  revert d. induction kvs as [|[k v] kvs IH]; intros d Hn; simpl.
  - reflexivity.
  - rewrite IH.
    + unfold put. simpl. apply lookup_insert_ne. intros E. injection E as ->.
      apply (Hn v). left.
    + intros v' Hin. apply (Hn v'). now right.
Qed.

Lemma fold_put_none (kvs : list (string * pyval)) (d : record) :
  fold_left put kvs d !! None = d !! None.
Proof.
  revert d. induction kvs as [|[k v] kvs IH]; intros d; simpl.
  - reflexivity.
  - rewrite IH. unfold put. now apply lookup_insert_ne.
Qed.

Lemma fold_put_last (kvs : list (string * pyval)) (d : record) i key v :
  kvs !! i = Some (key, v) ->
  (forall j v', i < j -> kvs !! j <> Some (key, v')) ->
  fold_left put kvs d !! Some key = Some v.
Proof.
  revert d i. induction kvs as [|[k0 v0] kvs IH]; intros d i Hi Hlast.
  - discriminate.
  - destruct i as [|i]; simpl in *.
    + injection Hi as -> ->. rewrite fold_put_absent.
      * unfold put. simpl. apply lookup_insert_eq.
      * intros v' Hin. apply list_elem_of_lookup_1 in Hin as [j Hj].
        apply (Hlast (S j) v'); [lia|exact Hj].
    + apply (IH _ i); trivial. intros j v' Hj. apply (Hlast (S j) v'). lia.
Qed.

Lemma zip_dict_fold fieldnames row :
  zip_dict fieldnames row = fold_left put (combine fieldnames (map PyStr row)) ∅.
Proof.
  unfold zip_dict. generalize (∅ : record).
  revert row. induction fieldnames as [|k fs IH]; intros [|r rs] d; simpl;
    auto.
Qed.

Lemma row_dict_fold fieldnames row :
  row_dict fieldnames row =
  let d := fold_left put (assignments fieldnames row) ∅ in
  if length fieldnames <? length row
  then <[None := PyList (drop (length fieldnames) row)]> d else d.
Proof.
  unfold row_dict, assignments. rewrite zip_dict_fold, fold_left_app. simpl.
  assert (Hm : forall l (d : record),
             fold_left (fun d key => <[Some key := PyNone]> d) l d
             = fold_left put (map (fun key => (key, PyNone)) l) d).
  { induction l as [|k l IHl]; intros d; simpl; auto. }
  destruct (Nat.ltb_spec (length fieldnames) (length row)) as [Hlt|Hge].
  - rewrite (drop_ge fieldnames (length row)) by lia. reflexivity.
  - destruct (Nat.ltb_spec (length row) (length fieldnames)) as [Hlt|Hge'].
    + apply Hm.
    + rewrite (drop_ge fieldnames (length row)) by lia. reflexivity.
Qed.

Lemma lookup_map {X Y : Type} (g : X -> Y) (l : list X) i :
  map g l !! i = g <$> l !! i.
Proof.
  revert i. induction l as [|x l IH]; intros [|i]; simpl; trivial.
Qed.

Lemma assignments_lookup fieldnames row i :
  assignments fieldnames row !! i
  = (fun key => (key, column row i)) <$> fieldnames !! i.
Proof.
  unfold assignments. revert row i.
  induction fieldnames as [|k fs IH]; intros row i.
  - now destruct row.
  - destruct row as [|r rs].
    + simpl. unfold column. rewrite lookup_nil.
      destruct i as [|i]; simpl; trivial. apply lookup_map.
    + destruct i as [|i]; simpl; trivial. exact (IH rs i).
Qed.

Lemma row_dict_rest fieldnames row :
  row_dict fieldnames row !! None =
  if length fieldnames <? length row
  then Some (PyList (drop (length fieldnames) row)) else None.
Proof.
  rewrite row_dict_fold. simpl.
  destruct (length fieldnames <? length row).
  - apply lookup_insert_eq.
  - rewrite fold_put_none. apply lookup_empty.
Qed.

Lemma row_dict_field fieldnames row i key :
  fieldnames !! i = Some key ->
  (forall j, i < j -> fieldnames !! j <> Some key) ->
  row_dict fieldnames row !! Some key = Some (column row i).
Proof.
  intros Hi Hlast. rewrite row_dict_fold. simpl.
  assert (Hf : fold_left put (assignments fieldnames row) ∅ !! Some key
               = Some (column row i)).
  { apply (fold_put_last _ _ i).
    - now rewrite assignments_lookup, Hi.
    - intros j v' Hj E. rewrite assignments_lookup in E.
      destruct (fieldnames !! j) as [k|] eqn:Ej; [|discriminate].
      simpl in E. injection E as -> _. now apply (Hlast j). }
  destruct (length fieldnames <? length row); trivial.
  now rewrite lookup_insert_ne.
Qed.

Lemma last_occurrence (fieldnames : list string) key :
  key ∈ fieldnames ->
  exists i, fieldnames !! i = Some key /\
            forall j, i < j -> fieldnames !! j <> Some key.
Proof.
  induction fieldnames as [|k fs IH]; intros Hin.
  - inversion Hin.
  - destruct (decide (key ∈ fs)) as [Hfs|Hfs].
    + destruct (IH Hfs) as (i & Hi & Hl). exists (S i). split; trivial.
      intros [|j] Hj; [lia|]. simpl. apply Hl. lia.
    + apply elem_of_cons in Hin as [->|]; [|contradiction].
      exists 0. split; trivial. intros [|j] Hj; [lia|]. simpl.
      intros E. apply Hfs. eapply list_elem_of_lookup_2; eauto.
Qed.

Lemma row_dict_names fieldnames row key :
  is_Some (row_dict fieldnames row !! Some key) <-> key ∈ fieldnames.
Proof.
  split.
  - intros [v Hv]. destruct (decide (key ∈ fieldnames)) as [|Hn]; trivial.
    rewrite row_dict_fold in Hv. simpl in Hv.
    assert (Hf : fold_left put (assignments fieldnames row) ∅ !! Some key = None).
    { rewrite fold_put_absent; [apply lookup_empty|].
      intros v' Hin. apply list_elem_of_lookup_1 in Hin as [i Hi].
      rewrite assignments_lookup in Hi.
      destruct (fieldnames !! i) as [k|] eqn:Ei; [|discriminate].
      simpl in Hi. injection Hi as -> _. apply Hn.
      eapply list_elem_of_lookup_2; eauto. }
    destruct (length fieldnames <? length row).
    + rewrite lookup_insert_ne in Hv by discriminate. congruence.
    + congruence.
  - intros Hin. destruct (last_occurrence _ _ Hin) as (i & Hi & Hl).
    rewrite (row_dict_field _ _ _ _ Hi Hl). eauto.
Qed.

End DictReaderFacts.

Section IngestionClaims.

Local Open Scope nat_scope.

(** C6, as amended: under a detected header every row that is not blank
    becomes one record and none stops the reading; the columns beyond
    the header are kept as a list under the key [None], and every field
    name is a key, of the text in its column or of [None] when the row
    is too short. *)
Theorem header_row_mismatch (f : csv_file) (fieldnames : list string)
    (body : list (list string)) :
  sniff_header f = Text true ->
  rows_sniffed f = Text (fieldnames :: body) ->
  CSVReader.read_file f =
    Ok (map (DictReader.row_dict fieldnames)
            (List.filter (fun row => negb (DictReader.is_blank row)) body)) /\
  forall row,
    DictReader.row_dict fieldnames row !! None =
      (if length fieldnames <? length row
       then Some (PyList (drop (length fieldnames) row)) else None) /\
    (forall key,
       is_Some (DictReader.row_dict fieldnames row !! Some key)
       <-> key ∈ fieldnames) /\
    (forall i key,
       fieldnames !! i = Some key ->
       (forall j, i < j -> fieldnames !! j <> Some key) ->
       DictReader.row_dict fieldnames row !! Some key =
         Some (match row !! i with
               | Some s => PyStr s
               | None => PyNone
               end)).
Proof.
  intros Hh Hr. split.
  - unfold CSVReader.read_file. now rewrite Hh, Hr.
  - intros row. split; [apply row_dict_rest|split].
    + intros key. apply row_dict_names.
    + intros i key. apply row_dict_field.
Qed.

Lemma read_loop_missing fs paths path all_data :
  path ∈ paths -> fs !! path = None ->
  exists e, CSVReader.read_loop fs paths all_data = Raise e.
Proof.
  revert all_data. induction paths as [|p paths IH]; intros acc Hin Hm.
  - inversion Hin.
  - simpl. destruct (fs !! p) as [[|f]|] eqn:Ep; eauto.
    destruct (CSVReader.read_file f) as [records|e]; simpl; eauto.
    apply IH; trivial. apply elem_of_cons in Hin as [->|]; trivial. congruence.
Qed.

Lemma read_loop_first_error fs before path after all_data e :
  Forall (readable fs) before -> path_error fs path = Some e ->
  CSVReader.read_loop fs (before ++ path :: after) all_data = Raise e.
Proof.
  intros Hb He. revert all_data.
  induction Hb as [|p before Hp _ IH]; intros acc; simpl.
  - unfold path_error in He. destruct (fs !! path) as [[|f]|].
    + now injection He as <-.
    + destruct (CSVReader.read_file f); [discriminate|]. now injection He as <-.
    + now injection He as <-.
  - unfold readable, path_error in Hp. destruct (fs !! p) as [[|f]|];
      try discriminate.
    destruct (CSVReader.read_file f); [|discriminate]. simpl. apply IH.
Qed.

(** C8, as amended: a path that does not exist makes the whole call
    fail, whatever was read before it. The call fails with the error of
    the first path that raises one: with the [FileNotFoundError] when
    every path before the missing one is read without an error. *)
Theorem missing_path fs paths path :
  path ∈ paths -> fs !! path = None ->
  (exists e, CSVReader.read_csv_files fs paths = Raise e) /\
  (forall before after,
     paths = before ++ path :: after ->
     Forall (readable fs) before ->
     CSVReader.read_csv_files fs paths = Raise FileNotFoundError) /\
  (forall before earlier after e,
     paths = before ++ earlier :: after ->
     Forall (readable fs) before ->
     path_error fs earlier = Some e ->
     CSVReader.read_csv_files fs paths = Raise e).
Proof.
  intros Hin Hm. split; [|split].
  - now apply read_loop_missing with (path := path).
  - intros before after -> Hb. apply read_loop_first_error; trivial.
    unfold path_error. now rewrite Hm.
  - intros before earlier after e -> Hb He. now apply read_loop_first_error.
Qed.

End IngestionClaims.

(** * The command line *)

Section MainClaims.

Context `{PyFloat.SumImpl}.

(** C3, as amended: when the files are read but hold no record, the run
    prints its warning and returns 1; when records are read and the
    report has no row, it prints its notice and returns 0. *)
Theorem no_records_exit args fs reports :
  list_reports_flag args = false ->
  (CSVReader.read_csv_files fs (files args) = Ok [] ->
   main args fs reports = ([NoDataWarning], 1%Z)) /\
  (forall data cls hs,
     CSVReader.read_csv_files fs (files args) = Ok data ->
     data <> [] ->
     ReportFactory.get_report reports (report_name args) = Ok cls ->
     ReportFactory.instance_generate cls data = Ok (hs, []) ->
     main args fs reports = ([EmptyReportNotice], 0%Z)).
Proof.
  intros Hf. unfold main, run. rewrite Hf. split.
  - intros ->. reflexivity.
  - intros data cls hs -> Hd -> Hg. simpl.
    destruct data; [congruence|]. simpl. now rewrite Hg.
Qed.

End MainClaims.

(** * The program on sample inputs *)

Import Sample.

Local Open Scope string_scope.
Local Open Scope list_scope.
Local Open Scope Z_scope.

Local Ltac evaluate := vm_compute; reflexivity.

Local Ltac strings :=
  repeat (constructor; [split; evaluate|]); constructor.

(** ** The scenarios of the specification *)

Example scenario_a :
  let data := [staff "Developer" "85.5"; staff "Developer" "78.3";
               staff "Manager" "92.0"; staff "Manager" "88.0"] in
  let rows := [[CStr "Manager"; CFloat (decimal 900 (-1))];
               [CStr "Developer"; CFloat (decimal 819 (-1))]] in
  @PerformanceReport.generate PyFloat.sum_left data
    = Ok (["Position"; "Avg Performance"], rows) /\
  @PerformanceReport.generate PyFloat.sum_neumaier data
    = Ok (["Position"; "Avg Performance"], rows).
Proof. split; evaluate. Qed.

Example scenario_b (sum : PyFloat.SumImpl) :
  PerformanceReport.generate [] = Ok (["Position"; "Avg Performance"], []).
Proof. reflexivity. Qed.

Example scenario_c :
  @PerformanceReport.generate PyFloat.sum_left
    [staff "Developer" "85.5"; staff "Developer" "invalid";
     staff "" "92.0"; staff "Manager" ""; ∅]
  = Ok (["Position"; "Avg Performance"],
        [[CStr "Developer"; CFloat (decimal 855 (-1))]]).
Proof. evaluate. Qed.

Example scenario_d :
  let data := [staff "Tester" "-10.0"; staff "Tester" "10.0"] in
  @PerformanceReport.generate PyFloat.sum_left data
    = Ok (["Position"; "Avg Performance"],
          [[CStr "Tester"; CFloat PyFloat.zero]]) /\
  @PerformanceReport.generate PyFloat.sum_neumaier data
    = Ok (["Position"; "Avg Performance"],
          [[CStr "Tester"; CFloat PyFloat.zero]]).
Proof. split; evaluate. Qed.

Example scenario_e (sum : PyFloat.SumImpl) :
  main {| files := ["staff.csv"]; report_name := "nonexistent";
          format := Table; list_reports_flag := false |}
       {[ "staff.csv" := File one_row_file ]} ReportFactory._reports
  = ([ErrorMessage ValueError], 1).
Proof. evaluate. Qed.

Example scenario_f (sum : PyFloat.SumImpl) :
  main (command ["missing.csv"]) ∅ ReportFactory._reports
  = ([ErrorMessage FileNotFoundError], 1).
Proof. evaluate. Qed.

Example rounding_half_even :
  PyFloat.round2 (decimal 125 (-3)) = decimal 12 (-2) /\
  PyFloat.round2 (decimal 2675 (-3)) = decimal 267 (-2) /\
  PyFloat.round2 (decimal 5 (-3)) = decimal 1 (-2).
Proof. repeat split; evaluate. Qed.

(** ** C1 *)

(** C1: the rows of a report are not always in descending order of the
    mean, as the comment above the sort and the claim have it: with a NaN
    among the means the rows come out as they went in, the row of 1.0
    before the row of NaN and the row of 2.0. *)
Lemma generate_rows_not_descending :
  let data := [staff "A" "1"; staff "B" "nan"; staff "C" "2"] in
  let rows := [[CStr "A"; CFloat (decimal 1 0)];
               [CStr "B"; CFloat PyFloat.nan];
               [CStr "C"; CFloat (decimal 2 0)]] in
  Forall string_fields data /\
  @PerformanceReport.generate PyFloat.sum_left data
    = Ok (["Position"; "Avg Performance"], rows) /\
  @PerformanceReport.generate PyFloat.sum_neumaier data
    = Ok (["Position"; "Avg Performance"], rows) /\
  PyFloat.ltb (decimal 1 0) (decimal 2 0) = true /\
  ~ descending rows.
Proof.
  cbv zeta. split; [strings|].
  split; [evaluate|]. split; [evaluate|]. split; [evaluate|].
  intros Hd.
  specialize (Hd 0%nat 2%nat _ _ _ _ ltac:(lia) eq_refl eq_refl).
  vm_compute in Hd. discriminate.
Qed.

Lemma generate_rows_witness :
  let data := [staff "Developer" "85.5"; staff "Developer" "78.3";
               staff "Manager" "92.0"; staff "Manager" "88.0"] in
  Forall string_fields data /\
  exists rows,
    @PerformanceReport.generate PyFloat.sum_left data
      = Ok (["Position"; "Avg Performance"], rows) /\
    (forall key v, [CStr key; CFloat v] ∈ rows -> PyFloat.is_nan v = false) /\
    descending rows.
Proof.
  cbv zeta.
  assert (Hs : Forall string_fields
                 [staff "Developer" "85.5"; staff "Developer" "78.3";
                  staff "Manager" "92.0"; staff "Manager" "88.0"])
    by strings.
  split; [exact Hs|].
  destruct (generate_rows (H := PyFloat.sum_left) _ Hs)
    as (rows & Hg & _ & _ & _ & Hdesc).
  exists rows. split; [exact Hg|].
  assert (Hnan : forall key v,
             [CStr key; CFloat v] ∈ rows -> PyFloat.is_nan v = false).
  { vm_compute in Hg. injection Hg as <-. intros key v Hin.
    repeat (apply elem_of_cons in Hin as [Hin|Hin];
            [injection Hin as -> ->; reflexivity|]).
    inversion Hin. }
  split; [exact Hnan|]. exact (Hdesc Hnan).
Defined.

(** ** C2 *)

(** C2: a row that is shorter than the header reaches [generate] with
    [None] under ['performance'] and stops the report with an
    [AttributeError], although the valid rows before it have a mean; the
    run ends with 1. *)
Theorem generate_raises_on_short_row (sum : PyFloat.SumImpl) :
  let fs : filesystem := {[ "staff.csv" := File short_row_file ]} in
  let good := staff "Developer" "85.5" in
  let short : record :=
    {[ Some "position" := PyStr "Developer";
       Some "performance" := PyNone ]} in
  CSVReader.read_csv_files fs ["staff.csv"]
    = Ok (replicate 9 good ++ [short]) /\
  PerformanceReport.generate (replicate 9 good ++ [short])
    = Raise AttributeError /\
  PerformanceReport.generate (replicate 9 good)
    = Ok (["Position"; "Avg Performance"],
          [[CStr "Developer";
            CFloat (PerformanceReport.avg_performance
                      (replicate 9 (decimal 855 (-1))))]]) /\
  main (command ["staff.csv"]) fs ReportFactory._reports
    = ([ErrorMessage AttributeError], 1) /\
  PerformanceReport.generate [good; short] = Raise AttributeError.
Proof. cbv zeta. repeat split; evaluate. Qed.

(** ** C3 *)

(** C3, counterexample: a file that holds its header only is read, gives
    no record, and the run returns 1, not 0. *)
Lemma no_records_exit_code_one :
  let fs : filesystem := {[ "staff.csv" := File header_only_file ]} in
  CSVReader.read_csv_files fs ["staff.csv"] = Ok [] /\
  @main PyFloat.sum_left (command ["staff.csv"]) fs ReportFactory._reports
    = ([NoDataWarning], 1) /\
  snd (@main PyFloat.sum_left (command ["staff.csv"]) fs
         ReportFactory._reports) <> 0.
Proof. cbv zeta. repeat split; try evaluate. vm_compute. discriminate. Qed.

Lemma no_records_exit_witness :
  let empty : filesystem := {[ "staff.csv" := File header_only_file ]} in
  let invalid : filesystem := {[ "staff.csv" := File invalid_number_file ]} in
  list_reports_flag (command ["staff.csv"]) = false /\
  (CSVReader.read_csv_files empty ["staff.csv"] = Ok [] /\
   @main PyFloat.sum_left (command ["staff.csv"]) empty ReportFactory._reports
     = ([NoDataWarning], 1)) /\
  (CSVReader.read_csv_files invalid ["staff.csv"]
     = Ok [staff "Developer" "n/a"] /\
   @main PyFloat.sum_left (command ["staff.csv"]) invalid
     ReportFactory._reports
     = ([EmptyReportNotice], 0)).
Proof.
  cbv zeta. split; [reflexivity|]. split.
  - split; [evaluate|].
    apply (proj1 (no_records_exit (H := PyFloat.sum_left)
                    (command ["staff.csv"]) _ ReportFactory._reports eq_refl)).
    evaluate.
  - split; [evaluate|].
    apply (proj2 (no_records_exit (H := PyFloat.sum_left)
                    (command ["staff.csv"]) _ ReportFactory._reports eq_refl)
             [staff "Developer" "n/a"] ReportFactory.PerformanceReportClass
             ["Position"; "Avg Performance"]).
    + evaluate.
    + discriminate.
    + evaluate.
    + evaluate.
Defined.

(** ** C4 *)

(** C4: the name of a registered report in another letter case is
    registered a second time instead of being refused, and the class put
    under it is never found; a name registered with a capital is not found
    under any spelling. *)
Theorem register_report_case_sensitive :
  ReportFactory.register_report ReportFactory._reports "Performance"
    ReportFactory.ReportGeneratorClass
  = Ok [("performance", ReportFactory.PerformanceReportClass);
        ("Performance", ReportFactory.ReportGeneratorClass)] /\
  ReportFactory.get_report
    [("performance", ReportFactory.PerformanceReportClass);
     ("Performance", ReportFactory.ReportGeneratorClass)] "Performance"
  = Ok ReportFactory.PerformanceReportClass /\
  ReportFactory.register_report ReportFactory._reports "Skills"
    ReportFactory.ReportGeneratorClass
  = Ok [("performance", ReportFactory.PerformanceReportClass);
        ("Skills", ReportFactory.ReportGeneratorClass)] /\
  ReportFactory.get_report
    [("performance", ReportFactory.PerformanceReportClass);
     ("Skills", ReportFactory.ReportGeneratorClass)] "Skills"
  = Raise ValueError /\
  ReportFactory.get_report
    [("performance", ReportFactory.PerformanceReportClass);
     ("Skills", ReportFactory.ReportGeneratorClass)] "skills"
  = Raise ValueError.
Proof. repeat split; evaluate. Qed.

(** ** C5 *)

(** C5: in a file where no header is detected the first row still names
    the fields and is not a record: the two rows [1,2] and [3,4] give the
    single record [{'1': '3', '2': '4'}], and no key [field_0]. *)
Theorem no_header_first_row_names_fields :
  let fs : filesystem := {[ "numbers.csv" := File numbers_file ]} in
  let only : record := {[ Some "1" := PyStr "3"; Some "2" := PyStr "4" ]} in
  sniff_header numbers_file = Text false /\
  CSVReader.read_csv_files fs ["numbers.csv"] = Ok [only] /\
  only !! Some "field_0" = None.
Proof. cbv zeta. repeat split; evaluate. Qed.

(** ** C6 *)

(** C6, counterexample: under the header [a,b] the row [1,2,3] keeps its
    third column, under the key [None], and the row [1] has the key ['b'],
    bound to [None]. *)
Lemma header_row_mismatch_keeps_columns :
  let even : record := {[ Some "a" := PyStr "1"; Some "b" := PyStr "2" ]} in
  let long : record :=
    {[ Some "a" := PyStr "1"; Some "b" := PyStr "2";
       None := PyList ["3"] ]} in
  let short : record := {[ Some "a" := PyStr "1"; Some "b" := PyNone ]} in
  sniff_header ragged_file = Text true /\
  CSVReader.read_file ragged_file = Ok (replicate 9 even ++ [long; short]) /\
  long !! None = Some (PyList ["3"]) /\
  short !! Some "b" = Some PyNone /\
  Some "b" ∈ dom short.
Proof.
  cbv zeta. split; [evaluate|]. split; [evaluate|].
  split; [evaluate|]. split; [evaluate|].
  apply elem_of_dom. exists PyNone. evaluate.
Qed.

Lemma header_row_mismatch_witness :
  sniff_header ragged_file = Text true /\
  rows_sniffed ragged_file
    = Text (["a"; "b"] :: replicate 9 ["1"; "2"] ++ [["1"; "2"; "3"]; ["1"]]) /\
  CSVReader.read_file ragged_file
    = Ok (replicate 9 (DictReader.row_dict ["a"; "b"] ["1"; "2"])
            ++ [DictReader.row_dict ["a"; "b"] ["1"; "2"; "3"];
                DictReader.row_dict ["a"; "b"] ["1"]]) /\
  DictReader.row_dict ["a"; "b"] ["1"; "2"; "3"] !! None
    = Some (PyList ["3"]) /\
  DictReader.row_dict ["a"; "b"] ["1"] !! Some "b" = Some PyNone.
Proof.
  split; [reflexivity|]. split; [reflexivity|].
  destruct (header_row_mismatch ragged_file ["a"; "b"]
              (replicate 9 ["1"; "2"] ++ [["1"; "2"; "3"]; ["1"]])
              eq_refl eq_refl)
    as [Hread Hrow].
  split; [exact Hread|]. split.
  - exact (proj1 (Hrow ["1"; "2"; "3"])).
  - apply (proj2 (proj2 (Hrow ["1"])) 1%nat "b"); [reflexivity|].
    intros [|[|j]] Hj; simpl; (lia || discriminate).
Defined.

(** ** C7 *)

Lemma report_invariants_witness :
  let data := [staff "Developer" "85.5"; staff "Developer" "78.3";
               staff "Manager" "92.0"; staff "Manager" "88.0"] in
  let rows := [[CStr "Manager"; CFloat (decimal 900 (-1))];
               [CStr "Developer"; CFloat (decimal 819 (-1))]] in
  @PerformanceReport.generate PyFloat.sum_left data
    = Ok (["Position"; "Avg Performance"], rows) /\
  Forall (fun row => length row = length ["Position"; "Avg Performance"]) rows /\
  NoDup (map (fun row : list cell => row !! 0%nat) rows).
Proof.
  cbv zeta. split; [evaluate|].
  apply (report_invariants (H := PyFloat.sum_left)
           [staff "Developer" "85.5"; staff "Developer" "78.3";
            staff "Manager" "92.0"; staff "Manager" "88.0"]).
  evaluate.
Defined.

(** ** C8 *)

(** C8, counterexample: when the file before the missing path is empty,
    the call fails with the [ValueError] of that file and not with the
    [FileNotFoundError]. *)
Lemma missing_path_after_bad_file :
  let fs : filesystem := {[ "empty.csv" := File empty_file ]} in
  "missing.csv" ∈ ["empty.csv"; "missing.csv"] /\
  fs !! "missing.csv" = None /\
  CSVReader.read_csv_files fs ["empty.csv"; "missing.csv"] = Raise ValueError /\
  CSVReader.read_csv_files fs ["empty.csv"; "missing.csv"]
    <> Raise FileNotFoundError.
Proof.
  cbv zeta. split; [right; left|]. split; [evaluate|]. split; [evaluate|].
  vm_compute. discriminate.
Qed.

Lemma missing_path_witness :
  let fs : filesystem :=
    {[ "staff.csv" := File one_row_file; "empty.csv" := File empty_file ]} in
  "missing.csv" ∈ ["staff.csv"; "empty.csv"; "missing.csv"] /\
  fs !! "missing.csv" = None /\
  Forall (readable fs) ["staff.csv"] /\
  path_error fs "empty.csv" = Some ValueError /\
  CSVReader.read_csv_files fs ["staff.csv"; "missing.csv"]
    = Raise FileNotFoundError /\
  CSVReader.read_csv_files fs ["staff.csv"; "empty.csv"; "missing.csv"]
    = Raise ValueError.
Proof.
  cbv zeta.
  set (fs := ({[ "staff.csv" := File one_row_file;
                 "empty.csv" := File empty_file ]} : filesystem)).
  assert (Hin : "missing.csv" ∈ ["staff.csv"; "empty.csv"; "missing.csv"])
    by (right; right; left).
  assert (Hin' : "missing.csv" ∈ ["staff.csv"; "missing.csv"])
    by (right; left).
  assert (Hm : fs !! "missing.csv" = None) by evaluate.
  assert (Hr : Forall (readable fs) ["staff.csv"])
    by (repeat constructor; evaluate).
  assert (He : path_error fs "empty.csv" = Some ValueError) by evaluate.
  split; [exact Hin|]. split; [exact Hm|]. split; [exact Hr|].
  split; [exact He|]. split.
  - exact (proj1 (proj2 (missing_path fs _ "missing.csv" Hin' Hm))
             ["staff.csv"] [] eq_refl Hr).
  - exact (proj2 (proj2 (missing_path fs _ "missing.csv" Hin Hm))
             ["staff.csv"] "empty.csv" ["missing.csv"] ValueError
             eq_refl Hr He).
Defined.

(** ** C9 *)

(** C9, counterexample: the single sample 1e308 is its own rounded mean,
    but read twice the sum overflows and the mean is infinite. *)
Lemma generate_twice_overflow :
  let data := [staff "A" "1e308"] in
  PerformanceReport.collect data [] = Ok [("A", [decimal 1 308])] /\
  PerformanceReport.collect (data ++ data) []
    = Ok [("A", [decimal 1 308; decimal 1 308])] /\
  @PerformanceReport.generate PyFloat.sum_left data
    = Ok (["Position"; "Avg Performance"],
          [[CStr "A"; CFloat (decimal 1 308)]]) /\
  @PerformanceReport.generate PyFloat.sum_left (data ++ data)
    = Ok (["Position"; "Avg Performance"],
          [[CStr "A"; CFloat (S754_infinity false)]]) /\
  @PerformanceReport.generate PyFloat.sum_neumaier data
    = Ok (["Position"; "Avg Performance"],
          [[CStr "A"; CFloat (decimal 1 308)]]) /\
  @PerformanceReport.generate PyFloat.sum_neumaier (data ++ data)
    = Ok (["Position"; "Avg Performance"],
          [[CStr "A"; CFloat (S754_infinity false)]]) /\
  decimal 1 308 <> S754_infinity false.
Proof.
  cbv zeta. repeat split; try evaluate. vm_compute. discriminate.
Qed.

(** Up to CPython 3.11, where [sum] adds from left to right, the rounded
    mean also moves without any overflow: three samples 0.025 have the
    rounded mean 0.03, six have 0.02. The compensated [sum] gives 0.03
    both times. *)
Example rounding_drift :
  @PerformanceReport.avg_performance PyFloat.sum_left
    (replicate 3 (decimal 25 (-3))) = decimal 3 (-2) /\
  @PerformanceReport.avg_performance PyFloat.sum_left
    (replicate 6 (decimal 25 (-3))) = decimal 2 (-2) /\
  @PerformanceReport.avg_performance PyFloat.sum_neumaier
    (replicate 3 (decimal 25 (-3))) = decimal 3 (-2) /\
  @PerformanceReport.avg_performance PyFloat.sum_neumaier
    (replicate 6 (decimal 25 (-3))) = decimal 3 (-2).
Proof. repeat split; evaluate. Qed.

Lemma generate_twice_witness :
  let data := [staff "Developer" "85.5"; staff "Manager" "92.0";
               staff "Developer" "85.5"] in
  let position_data := [("Developer", [decimal 855 (-1); decimal 855 (-1)]);
                        ("Manager", [decimal 920 (-1)])] in
  Forall string_fields data /\
  PerformanceReport.collect data [] = Ok position_data /\
  (forall key performances,
     (key, performances) ∈ position_data ->
     @PerformanceReport.avg_performance PyFloat.sum_left
       (performances ++ performances)
     = @PerformanceReport.avg_performance PyFloat.sum_left performances) /\
  @PerformanceReport.generate PyFloat.sum_left (data ++ data)
    = @PerformanceReport.generate PyFloat.sum_left data.
Proof.
  cbv zeta.
  assert (Hs : Forall string_fields
                 [staff "Developer" "85.5"; staff "Manager" "92.0";
                  staff "Developer" "85.5"]) by strings.
  split; [exact Hs|].
  destruct (generate_twice (H := PyFloat.sum_left) _ Hs)
    as (position_data & Hc & _ & Hg).
  vm_compute in Hc. injection Hc as <-.
  assert (Heq : forall key performances,
             (key, performances)
               ∈ [("Developer", [decimal 855 (-1); decimal 855 (-1)]);
                  ("Manager", [decimal 920 (-1)])] ->
             @PerformanceReport.avg_performance PyFloat.sum_left
               (performances ++ performances)
             = @PerformanceReport.avg_performance PyFloat.sum_left
                 performances).
  { intros key performances Hin.
    repeat (apply elem_of_cons in Hin as [Hin|Hin];
            [injection Hin as -> ->; evaluate|]).
    inversion Hin. }
  split; [evaluate|]. split; [exact Heq|]. apply Hg. exact Heq.
Defined.

(** ** C10 *)

Lemma generate_total_witness :
  let good := [staff "Developer" "85.5"; staff "Manager" "n/a"; ∅] in
  let bad : list record :=
    [staff "Developer" "85.5";
     {[ Some "position" := PyStr "Developer";
        Some "performance" := PyNone ]}] in
  (Forall string_fields good /\
   exists rows,
     @PerformanceReport.generate PyFloat.sum_left good
     = Ok (PerformanceReport.headers, rows)) /\
  (~ Forall string_fields bad /\
   @PerformanceReport.generate PyFloat.sum_left bad = Raise AttributeError).
Proof.
  cbv zeta. split.
  - assert (Hs : Forall string_fields
                   [staff "Developer" "85.5"; staff "Manager" "n/a"; ∅])
      by strings.
    split; [exact Hs|].
    exact (proj1 (generate_total (H := PyFloat.sum_left) _) Hs).
  - assert (Hn : ~ Forall string_fields
                     [staff "Developer" "85.5";
                      ({[ Some "position" := PyStr "Developer";
                          Some "performance" := PyNone ]} : record)]).
    { intros Hs. inversion Hs as [|? ? _ Hs']; subst.
      inversion Hs' as [|? ? [_ Hq] _]; subst.
      vm_compute in Hq. discriminate. }
    split; [exact Hn|].
    exact (proj2 (generate_total (H := PyFloat.sum_left) _) Hn).
Defined.

(** * Further properties *)

(** ** Ingestion *)

Section IngestionExtras.

Local Open Scope nat_scope.

Lemma read_loop_acc fs paths all_data :
  CSVReader.read_loop fs paths all_data =
  (records <-- CSVReader.read_loop fs paths [] ;; Ok (all_data ++ records)).
Proof.
  revert all_data. induction paths as [|p paths IH]; intros acc; simpl.
  - now rewrite app_nil_r.
  - destruct (fs !! p) as [[|f]|]; trivial.
    destruct (CSVReader.read_file f) as [records|e]; simpl; trivial.
    rewrite (IH (acc ++ records)), (IH records).
    destruct (CSVReader.read_loop fs paths []); simpl; trivial.
    now rewrite app_assoc.
Qed.

(** X1: reading two lists of paths in one call gives the records of the
    first list followed by those of the second, and fails as the first
    of the two calls that fails. *)
Theorem read_csv_files_app fs first second :
  CSVReader.read_csv_files fs (first ++ second) =
  (a <-- CSVReader.read_csv_files fs first ;;
   b <-- CSVReader.read_csv_files fs second ;;
   Ok (a ++ b)).
Proof.
  unfold CSVReader.read_csv_files.
  induction first as [|p first IH]; simpl.
  - now destruct (CSVReader.read_loop fs second []).
  - destruct (fs !! p) as [[|f]|]; trivial.
    destruct (CSVReader.read_file f) as [records|e]; simpl; trivial.
    rewrite (read_loop_acc fs (first ++ second) records), IH.
    rewrite (read_loop_acc fs first records).
    destruct (CSVReader.read_loop fs first []) as [a|e]; simpl; trivial.
    destruct (CSVReader.read_loop fs second []) as [b|e]; simpl; trivial.
    now rewrite app_assoc.
Qed.

Lemma read_loop_cons fs p paths :
  CSVReader.read_loop fs (p :: paths) [] =
  match path_error fs p with
  | Some e => Raise e
  | None =>
      records <-- CSVReader.read_loop fs paths [] ;;
      Ok (records_of fs [p] ++ records)
  end.
Proof.
  simpl. unfold path_error. destruct (fs !! p) as [[|f]|]; trivial.
  destruct (CSVReader.read_file f) as [records|e]; simpl; trivial.
  rewrite (read_loop_acc fs paths records). now rewrite app_nil_r.
Qed.

Lemma records_of_cons fs p paths :
  records_of fs (p :: paths) = records_of fs [p] ++ records_of fs paths.
Proof.
  simpl. destruct (fs !! p) as [[|f]|]; trivial.
  destruct (CSVReader.read_file f); simpl; trivial.
  now rewrite app_nil_r.
Qed.

Lemma read_loop_readable fs paths :
  Forall (readable fs) paths ->
  CSVReader.read_loop fs paths [] = Ok (records_of fs paths).
Proof.
  induction 1 as [|p paths Hp _ IH].
  - reflexivity.
  - rewrite read_loop_cons, Hp, IH, (records_of_cons fs p paths).
    reflexivity.
Qed.

Lemma read_loop_records fs paths data :
  CSVReader.read_loop fs paths [] = Ok data ->
  Forall (readable fs) paths /\ data = records_of fs paths.
Proof.
  revert data. induction paths as [|p paths IH]; intros data E.
  - simpl in E. injection E as <-. split; [constructor|reflexivity].
  - rewrite read_loop_cons in E.
    destruct (path_error fs p) eqn:Hp; [discriminate|].
    destruct (CSVReader.read_loop fs paths []) as [records|e]; [|discriminate].
    simpl in E. injection E as <-.
    destruct (IH records eq_refl) as [Hr ->]. split.
    + now constructor.
    + symmetry. apply records_of_cons.
Qed.

(** X2: the call returns exactly when every path is read without an
    error, and then it returns the records of the files in the order of
    the paths, a file named twice being read twice. *)
Theorem read_csv_files_ok fs paths :
  (Forall (readable fs) paths ->
   CSVReader.read_csv_files fs paths = Ok (records_of fs paths)) /\
  (forall data,
     CSVReader.read_csv_files fs paths = Ok data ->
     Forall (readable fs) paths /\ data = records_of fs paths).
Proof.
  split.
  - apply read_loop_readable.
  - apply read_loop_records.
Qed.

(** X3: the call fails with [e] exactly when [e] is the error of the
    first path, in the order given, that is not read without an
    error. *)
Theorem read_csv_files_error fs paths e :
  CSVReader.read_csv_files fs paths = Raise e <->
  exists before path after,
    paths = before ++ path :: after /\
    Forall (readable fs) before /\
    path_error fs path = Some e.
Proof.
  unfold CSVReader.read_csv_files. split.
  - induction paths as [|p paths IH]; intros E.
    + discriminate.
    + rewrite read_loop_cons in E.
      destruct (path_error fs p) as [e'|] eqn:Hp.
      * injection E as ->. exists [], p, paths. repeat split; trivial.
      * destruct (CSVReader.read_loop fs paths []) as [records|e'];
          [discriminate|].
        simpl in E. injection E as ->.
        destruct (IH eq_refl) as (before & path & after & -> & Hb & He).
        exists (p :: before), path, after. repeat split; trivial.
        now constructor.
  - intros (before & path & after & -> & Hb & He).
    now apply read_loop_first_error.
Qed.

(** ** Rows that are not shorter than the header *)

Lemma row_dict_string fieldnames row key v :
  length fieldnames <= length row ->
  DictReader.row_dict fieldnames row !! Some key = Some v ->
  exists s, v = PyStr s.
Proof.
  intros Hlen Hv.
  assert (Hin : key ∈ fieldnames).
  { apply (row_dict_names fieldnames row). eauto. }
  destruct (last_occurrence _ _ Hin) as (i & Hi & Hlast).
  rewrite (row_dict_field _ _ _ _ Hi Hlast) in Hv. injection Hv as <-.
  unfold column. apply lookup_lt_Some in Hi.
  destruct (lookup_lt_is_Some_2 row i) as [s Hs]; [lia|].
  rewrite Hs. eauto.
Qed.

Lemma row_dict_string_fields fieldnames row :
  length fieldnames <= length row ->
  string_fields (DictReader.row_dict fieldnames row).
Proof.
  intros Hlen. split.
  - destruct (DictReader.row_dict fieldnames row !! Some "position"%string)
      as [v|] eqn:E; trivial.
    destruct (row_dict_string _ _ _ _ Hlen E) as [s ->]. reflexivity.
  - destruct (DictReader.row_dict fieldnames row !! Some "performance"%string)
      as [v|] eqn:E; trivial.
    destruct (row_dict_string _ _ _ _ Hlen E) as [s ->]. reflexivity.
Qed.

Lemma read_full_rows rows :
  full_rows rows -> Forall string_fields (DictReader.read rows).
Proof.
  destruct rows as [|fieldnames body]; simpl; intros Hf.
  - constructor.
  - induction Hf as [|row body Hrow _ IH]; simpl.
    + constructor.
    + destruct row as [|c row]; simpl; trivial.
      constructor; trivial.
      apply row_dict_string_fields, Hrow. discriminate.
Qed.

Lemma read_file_full f records :
  full_file f -> CSVReader.read_file f = Ok records ->
  Forall string_fields records.
Proof.
  intros (Hs & He & Hc). unfold CSVReader.read_file, CSVReader.read_cp1251.
  assert (Hcp : match rows_cp1251 f with
                | Some rows => Ok (DictReader.read rows)
                | None => Raise ValueError
                end = Ok records -> Forall string_fields records).
  { destruct (rows_cp1251 f) as [rows|] eqn:E; [|discriminate].
    intros E'. injection E' as <-. now apply read_full_rows, Hc. }
  destruct (sniff_header f) as [[|]| |]; try discriminate; trivial.
  - destruct (rows_sniffed f) as [rows| |] eqn:E; try discriminate; trivial.
    intros E'. injection E' as <-. now apply read_full_rows, Hs.
  - destruct (rows_excel f) as [rows| |] eqn:E; try discriminate; trivial.
    intros E'. injection E' as <-. now apply read_full_rows, He.
Qed.

(** X4: when no row of any file is shorter than the first row of its
    file, every record that is read has strings under ['position'] and
    ['performance'], so that [generate] returns a report for what was
    read. *)
Theorem full_files_generate `{PyFloat.SumImpl} fs paths data :
  (forall path f, path ∈ paths -> fs !! path = Some (File f) -> full_file f) ->
  CSVReader.read_csv_files fs paths = Ok data ->
  Forall string_fields data /\
  exists rows,
    PerformanceReport.generate data = Ok (PerformanceReport.headers, rows).
Proof.
  intros Hfull E.
  assert (Hs : Forall string_fields data).
  { apply read_loop_records in E as [_ ->]. clear - Hfull.
    induction paths as [|p paths IH]; simpl; [constructor|].
    assert (IH' : Forall string_fields (records_of fs paths)).
    { apply IH. intros path f Hin. apply Hfull. now right. }
    destruct (fs !! p) as [[|f]|] eqn:Ep; trivial.
    destruct (CSVReader.read_file f) as [records|e] eqn:Ef; trivial.
    apply Forall_app. split; trivial.
    apply (read_file_full f); trivial. apply (Hfull p); [left|exact Ep]. }
  split; trivial. eexists. apply (generate_string _ Hs).
Qed.

End IngestionExtras.

(** ** The registry *)

Section RegistryExtras.

Import ReportFactory.

Lemma get_none reports name :
  get reports name = None <-> name ∉ list_reports reports.
Proof.
  unfold list_reports. induction reports as [|[k c] tl IH]; simpl.
  - split; trivial. intros _ Hin. inversion Hin.
  - rewrite not_elem_of_cons. destruct (String.eqb_spec k name) as [->|Hne].
    + split; [discriminate|]. intros [Hn _]. congruence.
    + rewrite IH. split; [intros Hn; split; trivial; congruence | tauto].
Qed.

Lemma get_some reports name :
  name ∈ list_reports reports -> exists c, get reports name = Some c.
Proof.
  intros Hin. destruct (get reports name) as [c|] eqn:E; eauto.
  apply get_none in E. contradiction.
Qed.

Lemma get_app reports name c key :
  get (reports ++ [(name, c)]) key =
  match get reports key with
  | Some c' => Some c'
  | None => if String.eqb name key then Some c else None
  end.
Proof.
  induction reports as [|[k c'] tl IH]; simpl; trivial.
  destruct (String.eqb k key); trivial.
Qed.

(** X5: a name is found exactly when its lower-case form is one of the
    listed names; otherwise the lookup fails with [ValueError]. *)
Theorem get_report_listed reports name :
  (PyStr.lower name ∈ list_reports reports ->
   exists c, get_report reports name = Ok c) /\
  (PyStr.lower name ∉ list_reports reports ->
   get_report reports name = Raise ValueError).
Proof.
  unfold get_report. split.
  - intros Hin. destruct (get_some _ _ Hin) as [c ->]. eauto.
  - intros Hn. apply get_none in Hn. now rewrite Hn.
Qed.

(** X6: registration only ever adds: a listed name is refused with
    [ValueError]; any other name is put at the end of the list, and the
    listed names stay distinct. *)
Theorem register_report_adds reports name c :
  (name ∈ list_reports reports ->
   register_report reports name c = Raise ValueError) /\
  (name ∉ list_reports reports ->
   register_report reports name c = Ok (reports ++ [(name, c)]) /\
   list_reports (reports ++ [(name, c)]) = list_reports reports ++ [name] /\
   (NoDup (list_reports reports) ->
    NoDup (list_reports (reports ++ [(name, c)])))).
Proof.
  unfold register_report. split.
  - intros Hin. destruct (get_some _ _ Hin) as [c' ->]. reflexivity.
  - intros Hn. pose proof Hn as Hg. apply get_none in Hg. rewrite Hg.
    assert (Hl : list_reports (reports ++ [(name, c)])
                 = list_reports reports ++ [name]).
    { unfold list_reports. now rewrite map_app. }
    repeat split; trivial. intros Hd. rewrite Hl.
    apply NoDup_app. repeat split; trivial.
    + intros x Hx Hx'. apply list_elem_of_singleton in Hx' as ->. contradiction.
    + apply NoDup_singleton.
Qed.

Lemma lower_char_idem c : PyStr.lower_char (PyStr.lower_char c) = PyStr.lower_char c.
Proof.
  destruct c as [[] [] [] [] [] [] [] []]; reflexivity.
Qed.

Lemma lower_idem s : PyStr.lower (PyStr.lower s) = PyStr.lower s.
Proof.
  induction s as [|c s IH]; simpl; [reflexivity|].
  now rewrite lower_char_idem, IH.
Qed.

(** X7: after a registration, the class is returned for every spelling
    whose lower-case form is the registered name; when the registered
    name has a capital letter there is no such spelling, and every
    lookup answers as it did before the registration. *)
Theorem register_then_get reports name c reports' :
  register_report reports name c = Ok reports' ->
  (forall spelling,
     PyStr.lower spelling = name -> get_report reports' spelling = Ok c) /\
  (PyStr.lower name <> name ->
   forall spelling,
     get_report reports' spelling = get_report reports spelling).
Proof.
  unfold register_report, get_report. intros E.
  destruct (get reports name) eqn:Hg; [discriminate|].
  injection E as <-. split.
  - intros spelling <-. now rewrite get_app, Hg, String.eqb_refl.
  - intros Hname spelling. rewrite get_app.
    destruct (get reports (PyStr.lower spelling)); trivial.
    destruct (String.eqb_spec name (PyStr.lower spelling)) as [->|]; trivial.
    now rewrite lower_idem in Hname.
Qed.

(** X8: registration never changes the answer to a lookup that
    succeeded before it. *)
Theorem register_keeps_lookups reports name c reports' spelling found :
  register_report reports name c = Ok reports' ->
  get_report reports spelling = Ok found ->
  get_report reports' spelling = Ok found.
Proof.
  unfold register_report, get_report. intros E Hf.
  destruct (get reports name); [discriminate|]. injection E as <-.
  rewrite get_app.
  destruct (get reports (PyStr.lower spelling)); [exact Hf|discriminate].
Qed.

End RegistryExtras.

(** ** The command line *)

Section MainExtras.

Context `{PyFloat.SumImpl}.

(** After the arguments are parsed, the value returned is 0 or 1; which
    of them, and when an error message is printed. *)
Lemma main_value args fs reports :
  (snd (main args fs reports) = 0 \/ snd (main args fs reports) = 1)%Z /\
  (snd (main args fs reports) = 0%Z <->
   list_reports_flag args = true \/
   exists data cls r,
     CSVReader.read_csv_files fs (files args) = Ok data /\
     data <> [] /\
     ReportFactory.get_report reports (report_name args) = Ok cls /\
     ReportFactory.instance_generate cls data = Ok r) /\
  (forall e, ErrorMessage e ∈ fst (main args fs reports) ->
             snd (main args fs reports) = 1%Z).
Proof.
  unfold main, run.
  destruct (list_reports_flag args) eqn:Hflag.
  { simpl. repeat split; auto.
    intros e He. apply list_elem_of_singleton in He. discriminate. }
  destruct (CSVReader.read_csv_files fs (files args)) as [data|e] eqn:Hread;
    simpl.
  2:{ repeat split; auto; try discriminate.
      intros [?|(d & c & r & ? & _)]; discriminate. }
  destruct data as [|row data]; simpl.
  { repeat split; auto; try discriminate.
    intros [?|(d & c & r & E & Hd & _)]; [discriminate|].
    injection E as <-. congruence. }
  destruct (ReportFactory.get_report reports (report_name args))
    as [cls|e] eqn:Hget; simpl.
  2:{ repeat split; auto; try discriminate.
      intros [?|(d & c & r & _ & _ & ? & _)]; discriminate. }
  destruct (ReportFactory.instance_generate cls (row :: data))
    as [r|e] eqn:Hgen; simpl.
  2:{ repeat split; auto; try discriminate.
      intros [?|(d & c & r & E & _ & E' & Hg)]; [discriminate|].
      injection E as <-. injection E' as <-. congruence. }
  assert (Hyes : exists d c r',
             Ok (row :: data) = Ok d /\ d <> [] /\
             Ok cls = Ok c /\
             ReportFactory.instance_generate c d = Ok r').
  { exists (row :: data), cls, r. repeat split; trivial. discriminate. }
  destruct (is_empty (snd r)); simpl; repeat split; auto.
  - intros e He. apply list_elem_of_singleton in He. discriminate.
  - intros e He. apply elem_of_cons in He as [He|He]; [discriminate|].
    apply list_elem_of_singleton in He. discriminate.
Qed.

(** X9: a call of [main()] ends in one of two ways. When [argparse]
    ends the process instead of returning from [parse_arguments], its
    [SystemExit] leaves [main] with the status of [argparse], and [main]
    has read and printed nothing. When [parse_arguments] returns, [main]
    returns 0 or 1: 0 exactly when the list of reports is asked for, or
    the files are read, hold a record, the report is found and its
    [generate] returns; an error message is printed only together with
    1. *)
Theorem main_exit_code command_line fs reports :
  (forall status,
     command_line = SystemExit status ->
     Script.main command_line fs reports = ([], Exits status)) /\
  (forall args,
     command_line = Namespace args ->
     exists out value,
       Script.main command_line fs reports = (out, Returns value) /\
       (value = 0 \/ value = 1)%Z /\
       (value = 0%Z <->
        list_reports_flag args = true \/
        exists data cls r,
          CSVReader.read_csv_files fs (files args) = Ok data /\
          data <> [] /\
          ReportFactory.get_report reports (report_name args) = Ok cls /\
          ReportFactory.instance_generate cls data = Ok r) /\
       (forall e, ErrorMessage e ∈ out -> value = 1%Z)).
Proof.
  split.
  - intros status ->. reflexivity.
  - intros args ->. unfold Script.main.
    pose proof (main_value args fs reports) as Hv.
    destruct (main args fs reports) as [out value]. simpl in Hv.
    exists out, value. split; [reflexivity|exact Hv].
Qed.

End MainExtras.

(** ** Ties keep their order in [list.sort] *)

Section SortStable.

Local Open Scope nat_scope.

Context {A : Type} (lt : A -> A -> bool) (P : A -> Prop).

Hypothesis lt_asym : forall x y, P x -> P y -> lt x y = true -> lt y x = false.
Hypothesis lt_cotrans : forall x y z, P x -> P y -> P z ->
  lt x z = true -> lt x y = true \/ lt y z = true.

Local Abbreviation upto := (upto lt P).
Local Abbreviation above := (above lt P).

(** Two elements of which one is below the other are not both tied
    with a third. *)
Lemma tied_below a x y :
  P a -> P x -> P y ->
  lt x y = true -> tied lt a x = true -> tied lt a y = false.
Proof using lt_cotrans.
  intros Pa Px Py Hxy Ht. unfold tied in *.
  apply andb_true_iff in Ht as [_ Hxa]. apply negb_true_iff in Hxa.
  destruct (lt_cotrans x a y Px Pa Py Hxy) as [E|E].
  - congruence.
  - now rewrite E.
Qed.

Lemma tied_above a x y :
  P a -> P x -> P y ->
  lt x y = true -> tied lt a y = true -> tied lt a x = false.
Proof using lt_cotrans.
  intros Pa Px Py Hxy Ht. unfold tied in *.
  apply andb_true_iff in Ht as [Hay _]. apply negb_true_iff in Hay.
  destruct (lt_cotrans x a y Px Pa Py Hxy) as [E|E].
  - rewrite E. apply andb_false_r.
  - congruence.
Qed.

Lemma filter_none (f : A -> bool) l :
  (forall x, x ∈ l -> f x = false) -> List.filter f l = [].
Proof.
  induction l as [|x l IH]; simpl; intros Hf; trivial.
  rewrite (Hf x) by left. apply IH. intros y Hy. apply Hf. now right.
Qed.

Lemma filter_short_rev (f : A -> bool) l :
  length (List.filter f l) <= 1 -> List.filter f (rev l) = List.filter f l.
Proof.
  intros Hlen. rewrite List.filter_rev.
  destruct (List.filter f l) as [|x [|y tl]]; simpl in *; trivial. lia.
Qed.

Lemma descending_one_tied a l :
  P a -> StronglySorted above l -> length (List.filter (tied lt a) l) <= 1.
Proof using lt_cotrans.
  intros Pa. induction 1 as [|x l _ IH Hx]; simpl; [lia|].
  destruct (tied lt a x) eqn:Ht; [|lia].
  assert (E : List.filter (tied lt a) l = []).
  { clear IH. induction Hx as [|y l (Px & Py & Hyx) _ IH']; simpl; trivial.
    now rewrite (tied_above a y x Pa Py Px Hyx Ht). }
  rewrite E. simpl. lia.
Qed.

Lemma count_run_stable a l run rest :
  P a -> Forall P l ->
  PyList.count_run lt l = (run, rest) ->
  List.filter (tied lt a) (run ++ rest) = List.filter (tied lt a) l.
Proof using lt_asym lt_cotrans.
  unfold PyList.count_run. destruct l as [|x [|y l]]; intros Pa Pl E.
  - now inversion E.
  - now inversion E.
  - inversion Pl as [|? ? Px Pl']; subst. inversion Pl' as [|? ? Py Pl'']; subst.
    destruct (lt y x) eqn:Hyx.
    + destruct (PyList.run_down lt y l) as [r t] eqn:Er.
      injection E as <- <-.
      pose proof (run_down_app lt _ _ _ _ Er) as ->.
      apply (run_down_sorted lt P) in Er; trivial.
      assert (Hs : StronglySorted above (x :: y :: r)).
      { apply Sorted_StronglySorted.
        - intros u v w. now apply above_trans.
        - constructor; trivial. constructor. repeat split; trivial. }
      change (x :: y :: r ++ t) with ((x :: y :: r) ++ t).
      rewrite (List.filter_app _ (rev (x :: y :: r)) t),
        (List.filter_app _ (x :: y :: r) t).
      f_equal.
      apply filter_short_rev, descending_one_tied; trivial.
    + destruct (PyList.run_up lt y l) as [r t] eqn:Er.
      injection E as <- <-.
      now pose proof (run_up_app lt _ _ _ _ Er) as ->.
Qed.

Lemma insert_stable a sorted pivot :
  P a -> StronglySorted upto sorted -> Forall P sorted -> P pivot ->
  List.filter (tied lt a)
    (take (PyList.insert_point lt sorted pivot) sorted
       ++ pivot :: drop (PyList.insert_point lt sorted pivot) sorted)
  = List.filter (tied lt a) (sorted ++ [pivot]).
Proof using lt_asym lt_cotrans.
  intros Pa Hs Ps Pp. unfold PyList.insert_point.
  destruct (bisect_spec lt P lt_cotrans
              (length sorted) sorted pivot 0 (length sorted))
    as (Hk & Hlo & Hhi); trivial; try lia.
  { intros i y Hi Hy. apply lookup_lt_Some in Hy. lia. }
  set (k := PyList.bisect lt (length sorted) sorted pivot 0 (length sorted)) in *.
  rewrite <- (take_drop k sorted) at 3.
  rewrite !List.filter_app. simpl.
  destruct (tied lt a pivot) eqn:Ht; [|now rewrite app_nil_r].
  assert (E : List.filter (tied lt a) (drop k sorted) = []).
  { apply filter_none. intros y Hy.
    apply list_elem_of_lookup_1 in Hy as (i & Hi).
    rewrite lookup_drop in Hi.
    assert (Py : P y).
    { apply (proj1 (Forall_forall P sorted) Ps).
      eapply list_elem_of_lookup_2, Hi. }
    apply (tied_below a pivot y); trivial.
    eapply Hhi; [|exact Hi]. lia. }
  now rewrite E, app_nil_r.
Qed.

Lemma binarysort_stable a sorted rest :
  P a -> StronglySorted upto sorted -> Forall P sorted -> Forall P rest ->
  List.filter (tied lt a) (PyList.binarysort lt sorted rest)
  = List.filter (tied lt a) (sorted ++ rest).
Proof using lt_asym lt_cotrans.
  intros Pa. revert sorted.
  induction rest as [|x rest IH]; intros sorted Hs Ps Pr; simpl.
  - now rewrite app_nil_r.
  - inversion Pr as [|? ? Px Pr']; subst. rewrite IH; trivial.
    + rewrite List.filter_app, insert_stable by trivial.
      rewrite <- List.filter_app, <- app_assoc. reflexivity.
    + now apply insert_sorted.
    + rewrite insert_perm. now constructor.
Qed.

Lemma sort_stable a l :
  P a -> Forall P l ->
  List.filter (tied lt a) (PyList.sort lt l) = List.filter (tied lt a) l.
Proof using lt_asym lt_cotrans.
  intros Pa Pl. unfold PyList.sort.
  destruct (PyList.count_run lt l) as [run rest] eqn:E.
  assert (Hp : Forall P (run ++ rest)).
  { now rewrite (count_run_app lt _ _ _ E). }
  apply Forall_app in Hp as [Prun Prest].
  rewrite binarysort_stable; trivial.
  - now apply count_run_stable.
  - apply (count_run_sorted lt P lt_asym lt_cotrans l run rest Pl E).
Qed.

Lemma sort_reverse_stable a l :
  P a -> Forall P l ->
  List.filter (tied lt a) (PyList.sort_reverse lt l)
  = List.filter (tied lt a) l.
Proof using lt_asym lt_cotrans.
  intros Pa Pl. unfold PyList.sort_reverse.
  rewrite List.filter_rev, sort_stable; trivial.
  - now rewrite List.filter_rev, rev_involutive.
  - now rewrite <- Permutation_rev.
Qed.

End SortStable.

(** ** The report *)

Section FloatEquality.

Lemma compare_opp x y :
  SFcompare y x = option_map CompOpp (SFcompare x y).
Proof.
  destruct x as [sx|sx| |sx mx ex], y as [sy|sy| |sy my ey];
    try destruct sx; try destruct sy; simpl; trivial;
    change (Pos.compare_cont Eq mx my) with (Pos.compare mx my);
    change (Pos.compare_cont Eq my mx) with (Pos.compare my mx);
    rewrite (Z.compare_antisym ex ey), (Pos.compare_antisym mx my);
    destruct (ex ?= ey)%Z, (mx ?= my)%positive; reflexivity.
Qed.

(** Without NaN, [x == y] holds exactly when neither is below the
    other. *)
Lemma eqb_tied x y :
  PyFloat.is_nan x = false -> PyFloat.is_nan y = false ->
  float_eqb x y = tied PyFloat.ltb y x.
Proof.
  intros Hx Hy. unfold float_eqb, tied, PyFloat.ltb, SFeqb, SFltb.
  rewrite (compare_opp x y).
  destruct x as [sx|sx| |sx mx ex], y as [sy|sy| |sy my ey];
    try discriminate; try destruct sx; try destruct sy; simpl; trivial;
    destruct (ex ?= ey)%Z, (Pos.compare_cont Eq mx my); reflexivity.
Qed.

Lemma eqb_nan x : float_eqb x PyFloat.nan = false.
Proof. now destruct x as [[]|[]| |[] m e]. Qed.

End FloatEquality.

Section GenerateExtras.

Context `{PyFloat.SumImpl}.

Import PerformanceReport.

Local Open Scope nat_scope.

(** *** The report is a function of the valid samples *)

Lemma fold_samples data position_data :
  fold_left add_row data position_data =
  fold_left (fun d s => append_sample (fst s) (snd s) d)
    (valid_samples data) position_data.
Proof.
  revert position_data. unfold valid_samples.
  induction data as [|row data IH]; intros pd; simpl; trivial.
  unfold add_row at 2. destruct (valid_sample row) as [[p v]|]; simpl; apply IH.
Qed.

(** X10: the report depends on the records only through their valid
    samples: the trimmed position and the parsed number of each record
    that has both, in order. Other columns, blanks around the two
    fields and records without a valid sample change nothing. *)
Theorem generate_depends_on_samples data data' :
  Forall string_fields data -> Forall string_fields data' ->
  valid_samples data = valid_samples data' ->
  generate data = generate data'.
Proof.
  intros Hs Hs' E.
  rewrite (generate_string data Hs), (generate_string data' Hs').
  now rewrite (fold_samples data), (fold_samples data'), E.
Qed.

(** *** The rows before the sort *)

Lemma keys_fold data position_data :
  map fst (fold_left add_row data position_data) =
  map fst position_data ++ first_positions data (map fst position_data).
Proof.
  revert position_data.
  induction data as [|row data IH]; intros pd; simpl.
  - now rewrite app_nil_r.
  - rewrite IH. unfold add_row. destruct (valid_sample row) as [[p v]|]; trivial.
    rewrite keys_append. destruct (decide (p ∈ map fst pd)); trivial.
    now rewrite <- app_assoc.
Qed.

Lemma report_rows_first data :
  report_rows (fold_left add_row data []) =
  map (fun key => (key, avg_performance (samples data key)))
      (first_positions data []).
Proof.
  destruct (well_formed_fold data [] well_formed_nil) as [Hk Hn].
  rewrite (report_rows_map _ Hn).
  rewrite (canonical _ Hk) at 1. rewrite keys_fold, map_map. simpl.
  apply List.map_ext. intros key. now rewrite entry_fold.
Qed.

Lemma row_cells_first data :
  map row_cells (report_rows (fold_left add_row data [])) = unsorted_rows data.
Proof.
  unfold unsorted_rows. now rewrite report_rows_first, map_map.
Qed.

Lemma first_positions_length data seen :
  length (first_positions data seen) <= length (List.filter is_valid data).
Proof.
  revert seen. induction data as [|row data IH]; intros seen; simpl; trivial.
  unfold is_valid at 1. destruct (valid_sample row) as [[p v]|]; trivial.
  destruct (decide (p ∈ seen)); simpl.
  - specialize (IH seen). lia.
  - specialize (IH (seen ++ [p])). lia.
Qed.

Lemma first_positions_nil data :
  first_positions data [] = [] <-> List.filter is_valid data = [].
Proof.
  induction data as [|row data IH]; simpl; [tauto|].
  unfold is_valid at 1. destruct (valid_sample row) as [[p v]|]; trivial.
  destruct (decide (p ∈ [])) as [Hin|_]; [inversion Hin|].
  split; discriminate.
Qed.

Lemma filter_length_le {X : Type} (f : X -> bool) l :
  length (List.filter f l) <= length l.
Proof.
  induction l as [|x l IH]; simpl; trivial. destruct (f x); simpl; lia.
Qed.

Lemma rows_length data hs rows :
  generate data = Ok (hs, rows) ->
  length rows = length (first_positions data []).
Proof.
  intros E. apply generate_inversion in E as (_ & _ & ->).
  rewrite length_map, (Permutation_length (sort_rows_perm _)).
  now rewrite report_rows_first, length_map.
Qed.

(** X11: the report has at most one row for each record with a valid
    sample, and it is empty exactly when no record has one. *)
Theorem report_size data hs rows :
  generate data = Ok (hs, rows) ->
  length rows <= length (List.filter is_valid data) /\
  length (List.filter is_valid data) <= length data /\
  (rows = [] <-> List.filter is_valid data = []).
Proof.
  intros E. apply rows_length in E. split; [|split].
  - rewrite E. apply first_positions_length.
  - apply filter_length_le.
  - rewrite <- first_positions_nil. split.
    + intros ->. now apply length_zero_iff_nil.
    + intros E'. rewrite E' in E. now apply length_zero_iff_nil.
Qed.

(** *** Keys are trimmed *)

Lemma rstrip_idem sp cs :
  PyStr.rstrip_with sp (PyStr.rstrip_with sp cs) = PyStr.rstrip_with sp cs.
Proof.
  induction cs as [|c cs IH]; simpl; trivial.
  destruct (PyStr.rstrip_with sp cs) as [|d r] eqn:E.
  - destruct (sp c) eqn:Ec; simpl; trivial. now rewrite Ec.
  - simpl in *. now rewrite IH.
Qed.

Lemma lstrip_head sp cs :
  match PyStr.lstrip_with sp cs with
  | [] => True
  | c :: _ => sp c = false
  end.
Proof.
  induction cs as [|c cs IH]; simpl; trivial.
  destruct (sp c) eqn:Ec; trivial.
Qed.

Lemma rstrip_head sp c cs :
  sp c = false ->
  exists r, PyStr.rstrip_with sp (c :: cs) = c :: r.
Proof.
  intros Ec. simpl. destruct (PyStr.rstrip_with sp cs); rewrite ?Ec; eauto.
Qed.

Lemma strip_with_idem sp cs :
  PyStr.strip_with sp (PyStr.strip_with sp cs) = PyStr.strip_with sp cs.
Proof.
  unfold PyStr.strip_with.
  pose proof (lstrip_head sp cs) as Hh.
  destruct (PyStr.lstrip_with sp cs) as [|c l]; trivial.
  destruct (rstrip_head sp c l Hh) as [r E]. rewrite E.
  simpl PyStr.lstrip_with. rewrite Hh, <- E. apply rstrip_idem.
Qed.

Lemma strip_idem s : PyStr.strip (PyStr.strip s) = PyStr.strip s.
Proof.
  unfold PyStr.strip.
  now rewrite list_ascii_of_string_of_list_ascii, strip_with_idem.
Qed.

Lemma valid_sample_position row key x :
  valid_sample row = Some (key, x) ->
  exists s, row !! Some "position"%string = Some (PyStr s) /\
            PyStr.strip s = key /\ key <> EmptyString.
Proof.
  unfold valid_sample, field.
  destruct (row !! Some "position"%string) as [[s| |]|]; try discriminate.
  destruct (row !! Some "performance"%string) as [[t| |]|]; try discriminate.
  destruct (PyStr.strip s) as [|c p] eqn:Es; simpl; [discriminate|].
  destruct (PyStr.truthy (PyStr.strip t)); [|discriminate].
  destruct (PyFloat.of_string (PyStr.strip t)); [|discriminate].
  intros E. injection E as <- <-. exists s. repeat split; trivial. discriminate.
Qed.

Lemma samples_inversion data key :
  samples data key <> [] ->
  exists row x, row ∈ data /\ valid_sample row = Some (key, x).
Proof.
  induction data as [|row data IH]; [now intros []|].
  rewrite samples_cons.
  destruct (valid_sample row) as [[p v]|] eqn:E.
  - destruct (String.eqb_spec p key) as [->|_].
    + intros _. exists row, v. split; [left|trivial].
    + intros Hs. destruct (IH Hs) as (r & x & Hin & Hv).
      exists r, x. split; [now right|trivial].
  - intros Hs. destruct (IH Hs) as (r & x & Hin & Hv).
    exists r, x. split; [now right|trivial].
Qed.

Lemma row_samples data hs rows key v :
  generate data = Ok (hs, rows) ->
  [CStr key; CFloat v] ∈ rows ->
  samples data key <> [] /\ v = avg_performance (samples data key).
Proof.
  intros E Hin. apply generate_inversion in E as (_ & _ & ->).
  apply elem_of_row_cells in Hin. rewrite (sort_rows_perm _) in Hin.
  now apply elem_of_report_rows.
Qed.

(** X12: the key of every row is not empty and carries no blank at
    either end: it is the trimmed text some record has under
    ['position']. *)
Theorem keys_trimmed data hs rows key v :
  generate data = Ok (hs, rows) ->
  [CStr key; CFloat v] ∈ rows ->
  key <> EmptyString /\
  PyStr.strip key = key /\
  exists row s,
    row ∈ data /\ row !! Some "position"%string = Some (PyStr s) /\
    PyStr.strip s = key.
Proof.
  intros E Hin. destruct (row_samples _ _ _ _ _ E Hin) as [Hs _].
  destruct (samples_inversion _ _ Hs) as (row & x & Hrow & Hv).
  destruct (valid_sample_position _ _ _ Hv) as (s & Hp & Hk & Hne).
  repeat split; trivial.
  - rewrite <- Hk. apply strip_idem.
  - eauto.
Qed.

(** *** Ties *)

Lemma filter_row_cells v rows :
  List.filter (mean_is v) (map row_cells rows) =
  map row_cells (List.filter (fun e => float_eqb (snd e) v) rows).
Proof.
  induction rows as [|[k x] rows IH]; simpl; trivial.
  destruct (float_eqb x v); simpl; now rewrite IH.
Qed.

(** X13: the rows are those of the groups in the order in which the
    positions first occur among the valid records, rearranged by the
    sort; when no mean is NaN, the rows of equal mean stay in that
    order. *)
Theorem equal_means_keep_order data hs rows :
  generate data = Ok (hs, rows) ->
  Permutation rows (unsorted_rows data) /\
  ((forall key v, [CStr key; CFloat v] ∈ rows -> PyFloat.is_nan v = false) ->
   forall v,
     List.filter (mean_is v) rows = List.filter (mean_is v) (unsorted_rows data)).
Proof.
  intros E. pose proof E as E'.
  apply generate_inversion in E' as (_ & _ & ->).
  rewrite <- row_cells_first. split.
  - apply Permutation_map, sort_rows_perm.
  - intros Hn v. rewrite !filter_row_cells. f_equal.
    set (rs := report_rows (fold_left add_row data [])) in *.
    assert (Pr : Forall (fun e => PyFloat.is_nan (snd e) = false) rs).
    { apply Forall_forall. intros [k x] Hin. simpl.
      apply (Hn k). apply elem_of_row_cells.
      now rewrite (sort_rows_perm rs). }
    destruct (PyFloat.is_nan v) eqn:Hv.
    + destruct v; try discriminate.
      rewrite !(filter_none (fun e => float_eqb (snd e) S754_nan)); trivial;
        intros e _; apply eqb_nan.
    + set (lt := fun x y : string * PyFloat.float =>
                   PyFloat.ltb (snd x) (snd y)).
      assert (Ps : Forall (fun e => PyFloat.is_nan (snd e) = false)
                     (sort_rows rs)).
      { now rewrite (sort_rows_perm rs). }
      rewrite (List.filter_ext_in _ (tied lt (EmptyString, v)) (sort_rows rs)).
      2:{ intros e He. apply eqb_tied; trivial.
          apply (proj1 (Forall_forall _ _) Ps), list_elem_of_In, He. }
      rewrite (List.filter_ext_in (fun e => float_eqb (snd e) v)
                 (tied lt (EmptyString, v)) rs).
      2:{ intros e He. apply eqb_tied; trivial.
          apply (proj1 (Forall_forall _ _) Pr), list_elem_of_In, He. }
      apply (sort_reverse_stable lt
               (fun e => PyFloat.is_nan (snd e) = false)); trivial.
      * intros x y. apply ltb_asym.
      * intros x y z. apply ltb_cotrans.
Qed.

End GenerateExtras.

(** ** What is written *)

Section OutputExtras.

Import Output.

Local Open Scope nat_scope.

Variable float_str : PyFloat.float -> string.

Lemma dashes_length n : String.length (dashes n) = n.
Proof. induction n as [|n IH]; simpl; congruence. Qed.

Lemma append_length (a b : string) :
  String.length (String.append a b) = String.length a + String.length b.
Proof.
  induction a as [|c a IH]; [reflexivity|].
  change (String.append (String c a) b) with (String c (String.append a b)).
  simpl. congruence.
Qed.

Lemma join_length sep items :
  String.length (join sep items) =
  list_sum (map String.length items)
    + String.length sep * pred (length items).
Proof.
  induction items as [|item [|next items] IH].
  - simpl. lia.
  - simpl. lia.
  - change (join sep (item :: next :: items))
      with (String.append item (String.append sep (join sep (next :: items)))).
    rewrite !append_length, IH. simpl. lia.
Qed.

(** X14: without [tabulate], the table is the two lines that ask for
    the library, the header line, a line of dashes exactly as long as
    the header line, and one line for each row, in order; three
    characters stand between two cells and nothing is padded. *)
Theorem print_table_fallback headers rows :
  exists header_line rule,
    print_table float_str false headers rows =
      [InstallNotice; InstallCommand; Line header_line; Line rule]
        ++ map (fun row => Line (join " | " (map (str float_str) row))) rows /\
    String.length header_line =
      list_sum (map String.length headers) + 3 * pred (length headers) /\
    String.length rule = String.length header_line /\
    (forall i, i < String.length rule -> String.get i rule = Some "-"%char) /\
    length (print_table float_str false headers rows) = 4 + length rows /\
    forall row,
      String.length (join " | " (map (str float_str) row)) =
      list_sum (map (fun item => String.length (str float_str item)) row)
        + 3 * pred (length row).
Proof.
  exists (join " | " headers), (dashes (String.length (join " | " headers))).
  split; [reflexivity|]. split; [apply join_length|].
  split; [apply dashes_length|]. split; [|split].
  - rewrite dashes_length. generalize (String.length (join " | " headers)).
    intros n. induction n as [|n IH]; intros i Hi; [lia|].
    destruct i as [|i]; simpl; trivial. apply IH. lia.
  - unfold print_table. simpl. now rewrite length_map.
  - intros row. rewrite join_length, length_map, map_map. reflexivity.
Qed.

Context `{PyFloat.SumImpl}.

(** X15: the table of a report, without [tabulate]: under the header
    line [Position | Avg Performance] and its 26 dashes, each row is
    written as the position, [ | ] and the mean. *)
Theorem report_table data hs rows :
  PerformanceReport.generate data = Ok (hs, rows) ->
  exists pairs,
    rows = map PerformanceReport.row_cells pairs /\
    print_table float_str false hs rows =
      [InstallNotice; InstallCommand;
       Line "Position | Avg Performance";
       Line "--------------------------"]
        ++ map (fun e => Line (String.append (fst e)
                                 (String.append " | " (float_str (snd e)))))
               pairs.
Proof.
  intros E. apply generate_inversion in E as (_ & -> & ->).
  eexists. split; [reflexivity|].
  unfold print_table. simpl. rewrite map_map. reflexivity.
Qed.

(** *** JSON *)

Lemma json_fold_absent (headers : list string) (row : list cell)
    (d : gmap string cell) key :
  key ∉ headers ->
  fold_left (fun d kv => <[fst kv := snd kv]> d) (combine headers row) d
    !! key = d !! key.
Proof.
  revert row d. induction headers as [|h headers IH]; intros row d Hn; trivial.
  destruct row as [|c row]; trivial. simpl.
  apply not_elem_of_cons in Hn as [Hne Hn].
  rewrite (IH row _ Hn). now apply lookup_insert_ne.
Qed.

Lemma json_fold_lookup (headers : list string) (row : list cell)
    (d : gmap string cell) i key :
  NoDup headers -> headers !! i = Some key ->
  fold_left (fun d kv => <[fst kv := snd kv]> d) (combine headers row) d
    !! key
  = match row !! i with
    | Some c => Some c
    | None => d !! key
    end.
Proof.
  revert row d i.
  induction headers as [|h headers IH]; intros row d i Hd Hi; [discriminate|].
  apply NoDup_cons in Hd as [Hh Hd].
  destruct row as [|c row]; [reflexivity|]. simpl.
  destruct i as [|i]; simpl in *.
  - injection Hi as ->. rewrite (json_fold_absent _ _ _ _ Hh).
    apply lookup_insert_eq.
  - rewrite (IH row _ i Hd Hi).
    destruct (row !! i); trivial. apply lookup_insert_ne.
    intros ->. apply Hh. eapply list_elem_of_lookup_2, Hi.
Qed.

(** X16: in the JSON output, when the headers are distinct, the object
    of a row binds each header to the cell of the same column; a header
    beyond the end of the row is left out of the object, and so is a cell
    beyond the last header. *)
Theorem json_object_lookup headers row :
  NoDup headers ->
  (forall i key,
     headers !! i = Some key -> json_object headers row !! key = row !! i) /\
  (forall key, key ∉ headers -> json_object headers row !! key = None).
Proof.
  intros Hd. unfold json_object. split.
  - intros i key Hi. rewrite (json_fold_lookup _ _ _ i key Hd Hi).
    destruct (row !! i); trivial.
  - intros key Hn. now rewrite json_fold_absent.
Qed.

(** X17: the JSON output of a report is, for each row in order, the
    object that binds [Position] to the position and [Avg Performance]
    to the mean. *)
Theorem report_json data hs rows :
  PerformanceReport.generate data = Ok (hs, rows) ->
  exists pairs,
    rows = map PerformanceReport.row_cells pairs /\
    json_result hs rows =
      map (fun e => <["Avg Performance"%string := CFloat (snd e)]>
                      {["Position"%string := CStr (fst e)]})
          pairs.
Proof.
  intros E. apply generate_inversion in E as (_ & -> & ->).
  eexists. split; [reflexivity|].
  unfold json_result. rewrite map_map. apply List.map_ext.
  intros [k v]. reflexivity.
Qed.

End OutputExtras.

Section SummaryExtras.

Context `{PyFloat.SumImpl}.

Local Open Scope nat_scope.

(** X18: when [main] prints its summary, the files were read, the
    first count is the number of records read and the second, the
    number of rows, is at least one and at most the first; the report
    was written just before, and the run returns 0. *)
Theorem main_summary args fs reports records rows :
  Summary records rows ∈ fst (main args fs reports) ->
  exists data r,
    CSVReader.read_csv_files fs (files args) = Ok data /\
    PerformanceReport.generate data = Ok r /\
    records = length data /\ rows = length (snd r) /\
    0 < rows <= records /\
    main args fs reports
      = ([Rendered (format args) r; Summary records rows], 0%Z).
Proof.
  unfold main, run.
  destruct (list_reports_flag args).
  { intros Hin. apply list_elem_of_singleton in Hin. discriminate. }
  destruct (CSVReader.read_csv_files fs (files args)) as [data|e]; simpl.
  2:{ intros Hin. apply list_elem_of_singleton in Hin. discriminate. }
  destruct (is_empty data) eqn:Hdata.
  { intros Hin. apply list_elem_of_singleton in Hin. discriminate. }
  destruct (ReportFactory.get_report reports (report_name args))
    as [cls|e]; simpl.
  2:{ intros Hin. apply list_elem_of_singleton in Hin. discriminate. }
  destruct (ReportFactory.instance_generate cls data) as [r|e] eqn:Hgen;
    simpl.
  2:{ intros Hin. apply list_elem_of_singleton in Hin. discriminate. }
  destruct (is_empty (snd r)) eqn:Hrows.
  { intros Hin. apply list_elem_of_singleton in Hin. discriminate. }
  intros Hin. apply elem_of_cons in Hin as [Hin|Hin]; [discriminate|].
  apply list_elem_of_singleton in Hin. injection Hin as -> ->.
  destruct cls; [|discriminate]. simpl in Hgen.
  exists data, r. repeat split; trivial.
  - destruct (snd r); [discriminate|simpl; lia].
  - destruct r as [hs rs]. simpl. rewrite (rows_length _ _ _ Hgen).
    pose proof (first_positions_length data []).
    pose proof (filter_length_le is_valid data). lia.
Qed.

End SummaryExtras.

(** ** NaN among the samples *)

Section NanExtras.

Import PerformanceReport.

Lemma add_nan_l x : PyFloat.add PyFloat.nan x = PyFloat.nan.
Proof. now destruct x. Qed.

Lemma add_nan_r x : PyFloat.add x PyFloat.nan = PyFloat.nan.
Proof. now destruct x. Qed.

Lemma fold_add_nan xs :
  fold_left PyFloat.add xs PyFloat.nan = PyFloat.nan.
Proof.
  induction xs as [|x xs IH]; simpl; trivial.
Qed.

Lemma sum_left_nan xs :
  PyFloat.nan ∈ xs -> PyFloat.sum_left xs = PyFloat.nan.
Proof.
  unfold PyFloat.sum_left. generalize PyFloat.zero.
  induction xs as [|x xs IH]; intros acc Hin; [inversion Hin|].
  simpl. apply elem_of_cons in Hin as [<-|Hin].
  - rewrite add_nan_r. apply fold_add_nan.
  - now apply IH.
Qed.

Lemma neumaier_nan c xs : PyFloat.neumaier PyFloat.nan c xs = PyFloat.nan.
Proof.
  revert c. induction xs as [|x xs IH]; intros c; simpl.
  - destruct (negb (PyFloat.is_zero c) && PyFloat.is_finite c)%bool; trivial.
  - rewrite ?add_nan_l. apply IH.
Qed.

Lemma neumaier_elem total c xs :
  PyFloat.nan ∈ xs -> PyFloat.neumaier total c xs = PyFloat.nan.
Proof.
  revert total c. induction xs as [|x xs IH]; intros total c Hin;
    [inversion Hin|].
  simpl. apply elem_of_cons in Hin as [<-|Hin].
  - rewrite add_nan_r. apply neumaier_nan.
  - now apply IH.
Qed.

Lemma sum_neumaier_nan xs :
  PyFloat.nan ∈ xs -> PyFloat.sum_neumaier xs = PyFloat.nan.
Proof.
  unfold PyFloat.sum_neumaier. destruct xs as [|x xs]; intros Hin;
    [inversion Hin|].
  apply elem_of_cons in Hin as [<-|Hin].
  - rewrite add_nan_r. apply neumaier_nan.
  - now apply neumaier_elem.
Qed.

Lemma average_nan (sum : PyFloat.SumImpl) xs :
  sum xs = PyFloat.nan -> @avg_performance sum xs = PyFloat.nan.
Proof.
  unfold avg_performance, PyFloat.average, PyFloat.py_sum. now intros ->.
Qed.

Lemma samples_elem data row key x :
  row ∈ data -> valid_sample row = Some (key, x) -> x ∈ samples data key.
Proof.
  intros Hin Hv. unfold samples. apply list_elem_of_In, in_flat_map.
  exists row. split; [now apply list_elem_of_In|].
  rewrite Hv, String.eqb_refl. now left.
Qed.

(** X19: NaN is read as a number, and one record whose number is NaN
    makes the mean of its position NaN, with the left-to-right [sum] and
    with the compensated one alike: the report has the row of that
    position with NaN in it. *)
Theorem nan_sample_nan_mean (sum : PyFloat.SumImpl) data row key hs rows :
  sum = PyFloat.sum_left \/ sum = PyFloat.sum_neumaier ->
  row ∈ data -> valid_sample row = Some (key, PyFloat.nan) ->
  @generate sum data = Ok (hs, rows) ->
  [CStr key; CFloat PyFloat.nan] ∈ rows.
Proof.
  intros Hsum Hin Hv E.
  pose proof (samples_elem _ _ _ _ Hin Hv) as Hnan.
  apply generate_inversion in E as (_ & _ & ->).
  apply elem_of_row_cells. rewrite (sort_rows_perm _).
  apply elem_of_report_rows. split.
  - intros E. rewrite E in Hnan. inversion Hnan.
  - symmetry. apply average_nan.
    destruct Hsum as [->| ->];
      [now apply sum_left_nan | now apply sum_neumaier_nan].
Qed.

End NanExtras.

(** ** The further properties on sample inputs *)

Lemma read_csv_files_ok_witness :
  let fs : filesystem := {[ "staff.csv" := File one_row_file;
                            "other.csv" := File invalid_number_file ]} in
  let paths := ["staff.csv"; "other.csv"; "staff.csv"] in
  Forall (readable fs) paths /\
  CSVReader.read_csv_files fs paths
    = Ok [staff "Developer" "85.5"; staff "Developer" "n/a";
          staff "Developer" "85.5"].
Proof.
  cbv zeta.
  assert (Hr : Forall (readable
                         ({[ "staff.csv" := File one_row_file;
                             "other.csv" := File invalid_number_file ]}
                            : filesystem))
                 ["staff.csv"; "other.csv"; "staff.csv"])
    by (repeat constructor; evaluate).
  split; [exact Hr|].
  rewrite (proj1 (read_csv_files_ok _ _) Hr). evaluate.
Defined.

Lemma read_csv_files_error_witness :
  let fs : filesystem := {[ "staff.csv" := File one_row_file;
                            "data" := Directory ]} in
  CSVReader.read_csv_files fs ["staff.csv"; "data"; "missing.csv"]
    = Raise IsADirectoryError /\
  Forall (readable fs) ["staff.csv"] /\
  path_error fs "data" = Some IsADirectoryError.
Proof.
  cbv zeta.
  assert (Hr : Forall (readable
                         ({[ "staff.csv" := File one_row_file;
                             "data" := Directory ]} : filesystem))
                 ["staff.csv"])
    by (repeat constructor; evaluate).
  split; [|split; [exact Hr|evaluate]].
  apply (proj2 (read_csv_files_error _ _ _)).
  exists ["staff.csv"], "data", ["missing.csv"].
  split; [reflexivity|]. split; [exact Hr|evaluate].
Defined.

Lemma full_files_generate_witness :
  let fs : filesystem := {[ "staff.csv" := File one_row_file ]} in
  (forall path f,
     path ∈ ["staff.csv"] -> fs !! path = Some (File f) -> full_file f) /\
  CSVReader.read_csv_files fs ["staff.csv"] = Ok [staff "Developer" "85.5"] /\
  Forall string_fields [staff "Developer" "85.5"] /\
  exists rows,
    @PerformanceReport.generate PyFloat.sum_left [staff "Developer" "85.5"]
    = Ok (PerformanceReport.headers, rows).
Proof.
  cbv zeta.
  assert (Hfull : forall path f,
             path ∈ ["staff.csv"] ->
             ({[ "staff.csv" := File one_row_file ]} : filesystem) !! path
               = Some (File f) ->
             full_file f).
  { intros path f Hin E. apply list_elem_of_singleton in Hin as ->.
    vm_compute in E. injection E as <-.
    repeat split; intros rows E; vm_compute in E; injection E as <-;
      repeat constructor. }
  assert (Hread : CSVReader.read_csv_files
                    ({[ "staff.csv" := File one_row_file ]} : filesystem)
                    ["staff.csv"]
                  = Ok [staff "Developer" "85.5"]) by evaluate.
  split; [exact Hfull|]. split; [exact Hread|].
  exact (full_files_generate (H := PyFloat.sum_left) _ _ _ Hfull Hread).
Defined.

Lemma get_report_listed_witness :
  PyStr.lower "PerFormance" ∈ ReportFactory.list_reports ReportFactory._reports /\
  (exists c,
     ReportFactory.get_report ReportFactory._reports "PerFormance" = Ok c) /\
  (PyStr.lower "skills" ∉ ReportFactory.list_reports ReportFactory._reports) /\
  ReportFactory.get_report ReportFactory._reports "skills" = Raise ValueError.
Proof.
  assert (Hin : PyStr.lower "PerFormance"
                  ∈ ReportFactory.list_reports ReportFactory._reports)
    by (vm_compute; left).
  assert (Hout : PyStr.lower "skills"
                   ∉ ReportFactory.list_reports ReportFactory._reports).
  { vm_compute. intros H. apply list_elem_of_singleton in H. discriminate. }
  split; [exact Hin|]. split.
  - exact (proj1 (get_report_listed _ _) Hin).
  - split; [exact Hout|]. exact (proj2 (get_report_listed _ _) Hout).
Defined.

Lemma register_report_adds_witness :
  "performance" ∈ ReportFactory.list_reports ReportFactory._reports /\
  ReportFactory.register_report ReportFactory._reports "performance"
    ReportFactory.ReportGeneratorClass = Raise ValueError /\
  ("skills" ∉ ReportFactory.list_reports ReportFactory._reports) /\
  ReportFactory.register_report ReportFactory._reports "skills"
    ReportFactory.ReportGeneratorClass
  = Ok (ReportFactory._reports
          ++ [("skills", ReportFactory.ReportGeneratorClass)]) /\
  NoDup (ReportFactory.list_reports
           (ReportFactory._reports
              ++ [("skills", ReportFactory.ReportGeneratorClass)])).
Proof.
  assert (Hin : "performance"
                  ∈ ReportFactory.list_reports ReportFactory._reports)
    by (vm_compute; left).
  assert (Hout : "skills" ∉ ReportFactory.list_reports ReportFactory._reports).
  { vm_compute. intros H. apply list_elem_of_singleton in H. discriminate. }
  assert (Hd : NoDup (ReportFactory.list_reports ReportFactory._reports)).
  { vm_compute. apply NoDup_singleton. }
  split; [exact Hin|]. split.
  - exact (proj1 (register_report_adds _ _ _) Hin).
  - split; [exact Hout|].
    destruct (proj2 (register_report_adds ReportFactory._reports "skills"
                       ReportFactory.ReportGeneratorClass) Hout)
      as (Hreg & _ & Hnd).
    split; [exact Hreg|]. exact (Hnd Hd).
Defined.

Lemma register_then_get_witness :
  let added := ReportFactory._reports
                 ++ [("skills", ReportFactory.ReportGeneratorClass)] in
  let capital := ReportFactory._reports
                   ++ [("Skills", ReportFactory.ReportGeneratorClass)] in
  ReportFactory.register_report ReportFactory._reports "skills"
    ReportFactory.ReportGeneratorClass = Ok added /\
  PyStr.lower "SKILLS" = "skills" /\
  ReportFactory.get_report added "SKILLS"
    = Ok ReportFactory.ReportGeneratorClass /\
  ReportFactory.register_report ReportFactory._reports "Skills"
    ReportFactory.ReportGeneratorClass = Ok capital /\
  PyStr.lower "Skills" <> "Skills" /\
  ReportFactory.get_report capital "Skills"
    = ReportFactory.get_report ReportFactory._reports "Skills".
Proof.
  cbv zeta.
  assert (Hreg : ReportFactory.register_report ReportFactory._reports "skills"
                   ReportFactory.ReportGeneratorClass
                 = Ok (ReportFactory._reports
                         ++ [("skills", ReportFactory.ReportGeneratorClass)]))
    by evaluate.
  assert (Hcap : ReportFactory.register_report ReportFactory._reports "Skills"
                   ReportFactory.ReportGeneratorClass
                 = Ok (ReportFactory._reports
                         ++ [("Skills", ReportFactory.ReportGeneratorClass)]))
    by evaluate.
  assert (Hne : PyStr.lower "Skills" <> "Skills")
    by (vm_compute; discriminate).
  split; [exact Hreg|]. split; [evaluate|]. split.
  - apply (proj1 (register_then_get _ _ _ _ Hreg)). evaluate.
  - split; [exact Hcap|]. split; [exact Hne|].
    exact (proj2 (register_then_get _ _ _ _ Hcap) Hne "Skills").
Defined.

Lemma register_keeps_lookups_witness :
  let added := ReportFactory._reports
                 ++ [("skills", ReportFactory.ReportGeneratorClass)] in
  ReportFactory.register_report ReportFactory._reports "skills"
    ReportFactory.ReportGeneratorClass = Ok added /\
  ReportFactory.get_report ReportFactory._reports "Performance"
    = Ok ReportFactory.PerformanceReportClass /\
  ReportFactory.get_report added "Performance"
    = Ok ReportFactory.PerformanceReportClass.
Proof.
  cbv zeta.
  assert (Hreg : ReportFactory.register_report ReportFactory._reports "skills"
                   ReportFactory.ReportGeneratorClass
                 = Ok (ReportFactory._reports
                         ++ [("skills", ReportFactory.ReportGeneratorClass)]))
    by evaluate.
  assert (Hget : ReportFactory.get_report ReportFactory._reports "Performance"
                 = Ok ReportFactory.PerformanceReportClass) by evaluate.
  split; [exact Hreg|]. split; [exact Hget|].
  exact (register_keeps_lookups _ _ _ _ _ _ Hreg Hget).
Defined.

Lemma main_exit_code_witness :
  let fs : filesystem := {[ "staff.csv" := File one_row_file ]} in
  @Script.main PyFloat.sum_left (SystemExit 2) fs ReportFactory._reports
    = ([], Exits 2) /\
  CSVReader.read_csv_files fs (files (command ["staff.csv"]))
    = Ok [staff "Developer" "85.5"] /\
  (exists out,
     @Script.main PyFloat.sum_left (Namespace (command ["staff.csv"])) fs
       ReportFactory._reports = (out, Returns 0)) /\
  (exists out value,
     @Script.main PyFloat.sum_left (Namespace (command ["missing.csv"])) fs
       ReportFactory._reports = (out, Returns value) /\
     ErrorMessage FileNotFoundError ∈ out /\ value = 1).
Proof.
  cbv zeta. split; [|split; [evaluate|split]].
  - exact (proj1 (main_exit_code (H := PyFloat.sum_left) (SystemExit 2) _ _)
             2 eq_refl).
  - destruct (proj2 (main_exit_code (H := PyFloat.sum_left)
                       (Namespace (command ["staff.csv"]))
                       ({[ "staff.csv" := File one_row_file ]} : filesystem)
                       ReportFactory._reports) _ eq_refl)
      as (out & value & E & _ & Hzero & _).
    exists out. rewrite E. f_equal. f_equal. apply Hzero. right.
    exists [staff "Developer" "85.5"], ReportFactory.PerformanceReportClass,
      (["Position"; "Avg Performance"],
       [[CStr "Developer"; CFloat (decimal 855 (-1))]]).
    split; [evaluate|]. split; [discriminate|]. split; evaluate.
  - destruct (proj2 (main_exit_code (H := PyFloat.sum_left)
                       (Namespace (command ["missing.csv"]))
                       ({[ "staff.csv" := File one_row_file ]} : filesystem)
                       ReportFactory._reports) _ eq_refl)
      as (out & value & E & _ & _ & Herr).
    exists out, value.
    assert (Hin : ErrorMessage FileNotFoundError ∈ out).
    { vm_compute in E. injection E as <- _. left. }
    split; [exact E|]. split; [exact Hin|]. exact (Herr _ Hin).
Defined.

Lemma generate_depends_on_samples_witness :
  let data : list record :=
    [{[ Some "position" := PyStr "  Developer ";
        Some "performance" := PyStr " 85.5";
        Some "name" := PyStr "Ann" ]};
     staff "Developer" "n/a"; staff "" "70"; ∅;
     staff "Manager" "92.0"] in
  let data' := [staff "Developer" "85.5"; staff "Manager" "92.0"] in
  Forall string_fields data /\ Forall string_fields data' /\
  valid_samples data = valid_samples data' /\
  @PerformanceReport.generate PyFloat.sum_left data
    = @PerformanceReport.generate PyFloat.sum_left data'.
Proof.
  cbv zeta.
  assert (Hs : Forall string_fields
                 [({[ Some "position" := PyStr "  Developer ";
                      Some "performance" := PyStr " 85.5";
                      Some "name" := PyStr "Ann" ]} : record);
                  staff "Developer" "n/a"; staff "" "70"; ∅;
                  staff "Manager" "92.0"]) by strings.
  assert (Hs' : Forall string_fields
                  [staff "Developer" "85.5"; staff "Manager" "92.0"])
    by strings.
  assert (E : valid_samples
                [({[ Some "position" := PyStr "  Developer ";
                     Some "performance" := PyStr " 85.5";
                     Some "name" := PyStr "Ann" ]} : record);
                 staff "Developer" "n/a"; staff "" "70"; ∅;
                 staff "Manager" "92.0"]
              = valid_samples
                  [staff "Developer" "85.5"; staff "Manager" "92.0"])
    by evaluate.
  split; [exact Hs|]. split; [exact Hs'|]. split; [exact E|].
  exact (generate_depends_on_samples (H := PyFloat.sum_left) _ _ Hs Hs' E).
Defined.

Lemma report_size_witness :
  let data := [staff "Developer" "85.5"; staff "Manager" "n/a";
               staff "Developer" "78.3"] in
  let rows := [[CStr "Developer"; CFloat (decimal 819 (-1))]] in
  @PerformanceReport.generate PyFloat.sum_left data
    = Ok (["Position"; "Avg Performance"], rows) /\
  (length rows <= length (List.filter is_valid data))%nat /\
  (length (List.filter is_valid data) <= length data)%nat /\
  (rows = [] <-> List.filter is_valid data = []).
Proof.
  cbv zeta.
  assert (E : @PerformanceReport.generate PyFloat.sum_left
                [staff "Developer" "85.5"; staff "Manager" "n/a";
                 staff "Developer" "78.3"]
              = Ok (["Position"; "Avg Performance"],
                    [[CStr "Developer"; CFloat (decimal 819 (-1))]]))
    by evaluate.
  split; [exact E|].
  exact (report_size (H := PyFloat.sum_left) _ _ _ E).
Defined.

Lemma keys_trimmed_witness :
  let data := [staff "  Developer " "85.5"] in
  let rows := [[CStr "Developer"; CFloat (decimal 855 (-1))]] in
  @PerformanceReport.generate PyFloat.sum_left data
    = Ok (["Position"; "Avg Performance"], rows) /\
  [CStr "Developer"; CFloat (decimal 855 (-1))] ∈ rows /\
  "Developer" <> "" /\ PyStr.strip "Developer" = "Developer".
Proof.
  cbv zeta.
  assert (E : @PerformanceReport.generate PyFloat.sum_left
                [staff "  Developer " "85.5"]
              = Ok (["Position"; "Avg Performance"],
                    [[CStr "Developer"; CFloat (decimal 855 (-1))]]))
    by evaluate.
  assert (Hin : [CStr "Developer"; CFloat (decimal 855 (-1))]
                  ∈ [[CStr "Developer"; CFloat (decimal 855 (-1))]])
    by left.
  split; [exact E|]. split; [exact Hin|].
  destruct (keys_trimmed (H := PyFloat.sum_left) _ _ _ _ _ E Hin)
    as (Hne & Hstrip & _).
  split; [exact Hne|exact Hstrip].
Defined.

Lemma equal_means_keep_order_witness :
  let data := [staff "Tester" "70"; staff "Manager" "92";
               staff "Developer" "70"; staff "Analyst" "70"] in
  let rows := [[CStr "Manager"; CFloat (decimal 92 0)];
               [CStr "Tester"; CFloat (decimal 70 0)];
               [CStr "Developer"; CFloat (decimal 70 0)];
               [CStr "Analyst"; CFloat (decimal 70 0)]] in
  @PerformanceReport.generate PyFloat.sum_left data
    = Ok (["Position"; "Avg Performance"], rows) /\
  (forall key v, [CStr key; CFloat v] ∈ rows -> PyFloat.is_nan v = false) /\
  List.filter (mean_is (decimal 70 0)) rows
    = List.filter (mean_is (decimal 70 0))
        (@unsorted_rows PyFloat.sum_left data).
Proof.
  cbv zeta.
  assert (E : @PerformanceReport.generate PyFloat.sum_left
                [staff "Tester" "70"; staff "Manager" "92";
                 staff "Developer" "70"; staff "Analyst" "70"]
              = Ok (["Position"; "Avg Performance"],
                    [[CStr "Manager"; CFloat (decimal 92 0)];
                     [CStr "Tester"; CFloat (decimal 70 0)];
                     [CStr "Developer"; CFloat (decimal 70 0)];
                     [CStr "Analyst"; CFloat (decimal 70 0)]]))
    by evaluate.
  assert (Hn : forall key v,
             [CStr key; CFloat v]
               ∈ [[CStr "Manager"; CFloat (decimal 92 0)];
                  [CStr "Tester"; CFloat (decimal 70 0)];
                  [CStr "Developer"; CFloat (decimal 70 0)];
                  [CStr "Analyst"; CFloat (decimal 70 0)]] ->
             PyFloat.is_nan v = false).
  { intros key v Hin.
    repeat (apply elem_of_cons in Hin as [Hin|Hin];
            [injection Hin as -> ->; evaluate|]).
    inversion Hin. }
  split; [exact E|]. split; [exact Hn|].
  exact (proj2 (equal_means_keep_order (H := PyFloat.sum_left) _ _ _ E) Hn
           (decimal 70 0)).
Defined.

Lemma print_table_fallback_witness :
  Output.print_table (fun _ => "85.5") false ["Position"; "Avg Performance"]
    [[CStr "Developer"; CFloat (decimal 855 (-1))]]
  = [InstallNotice; InstallCommand;
     Line "Position | Avg Performance";
     Line "--------------------------";
     Line "Developer | 85.5"] /\
  (length (Output.print_table (fun _ => "85.5") false
             ["Position"; "Avg Performance"]
             [[CStr "Developer"; CFloat (decimal 855 (-1))]]) = 5)%nat.
Proof.
  split; [evaluate|].
  destruct (print_table_fallback (fun _ => "85.5")
              ["Position"; "Avg Performance"]
              [[CStr "Developer"; CFloat (decimal 855 (-1))]])
    as (header_line & rule & _ & _ & _ & _ & Hlen & _).
  exact Hlen.
Defined.

Lemma report_table_witness :
  let data := [staff "Developer" "85.5"] in
  let rows := [[CStr "Developer"; CFloat (decimal 855 (-1))]] in
  @PerformanceReport.generate PyFloat.sum_left data
    = Ok (["Position"; "Avg Performance"], rows) /\
  exists pairs,
    rows = map PerformanceReport.row_cells pairs /\
    Output.print_table (fun _ => "85.5") false
      ["Position"; "Avg Performance"] rows
    = [InstallNotice; InstallCommand;
       Line "Position | Avg Performance";
       Line "--------------------------"]
        ++ map (fun e => Line (String.append (fst e)
                                 (String.append " | " "85.5")))
               pairs.
Proof.
  cbv zeta.
  assert (E : @PerformanceReport.generate PyFloat.sum_left
                [staff "Developer" "85.5"]
              = Ok (["Position"; "Avg Performance"],
                    [[CStr "Developer"; CFloat (decimal 855 (-1))]]))
    by evaluate.
  split; [exact E|].
  exact (report_table (fun _ => "85.5") (H := PyFloat.sum_left) _ _ _ E).
Defined.

Lemma json_object_lookup_witness :
  let headers := ["Position"; "Avg Performance"] in
  NoDup headers /\
  Output.json_object headers [CStr "Developer"] !! "Position"
    = Some (CStr "Developer") /\
  Output.json_object headers [CStr "Developer"] !! "Avg Performance" = None /\
  Output.json_object headers [CStr "Developer"] !! "Name" = None.
Proof.
  cbv zeta.
  assert (Hd : NoDup ["Position"; "Avg Performance"]).
  { apply NoDup_cons. split.
    - intros H. apply list_elem_of_singleton in H. discriminate.
    - apply NoDup_singleton. }
  split; [exact Hd|].
  destruct (json_object_lookup ["Position"; "Avg Performance"]
              [CStr "Developer"] Hd) as [Hin Hout].
  split; [exact (Hin 0%nat "Position" eq_refl)|].
  split; [exact (Hin 1%nat "Avg Performance" eq_refl)|].
  apply Hout. intros H.
  apply elem_of_cons in H as [H|H]; [discriminate|].
  apply list_elem_of_singleton in H. discriminate.
Defined.

Lemma report_json_witness :
  let data := [staff "Developer" "85.5"] in
  let rows := [[CStr "Developer"; CFloat (decimal 855 (-1))]] in
  @PerformanceReport.generate PyFloat.sum_left data
    = Ok (["Position"; "Avg Performance"], rows) /\
  exists pairs,
    rows = map PerformanceReport.row_cells pairs /\
    Output.json_result ["Position"; "Avg Performance"] rows
    = map (fun e => <["Avg Performance" := CFloat (snd e)]>
                      {["Position" := CStr (fst e)]})
          pairs.
Proof.
  cbv zeta.
  assert (E : @PerformanceReport.generate PyFloat.sum_left
                [staff "Developer" "85.5"]
              = Ok (["Position"; "Avg Performance"],
                    [[CStr "Developer"; CFloat (decimal 855 (-1))]]))
    by evaluate.
  split; [exact E|].
  exact (report_json (H := PyFloat.sum_left) _ _ _ E).
Defined.

Lemma main_summary_witness :
  let fs : filesystem := {[ "staff.csv" := File one_row_file;
                            "other.csv" := File invalid_number_file ]} in
  let args := command ["staff.csv"; "other.csv"] in
  Summary 2 1 ∈ fst (@main PyFloat.sum_left args fs ReportFactory._reports) /\
  exists data r,
    CSVReader.read_csv_files fs (files args) = Ok data /\
    @PerformanceReport.generate PyFloat.sum_left data = Ok r /\
    2%nat = length data /\ 1%nat = length (snd r) /\
    (0 < 1 <= 2)%nat /\
    @main PyFloat.sum_left args fs ReportFactory._reports
      = ([Rendered (format args) r; Summary 2 1], 0).
Proof.
  cbv zeta.
  assert (Hin : Summary 2 1
                  ∈ fst (@main PyFloat.sum_left
                           (command ["staff.csv"; "other.csv"])
                           ({[ "staff.csv" := File one_row_file;
                               "other.csv" := File invalid_number_file ]}
                              : filesystem)
                           ReportFactory._reports)).
  { vm_compute. right. left. }
  split; [exact Hin|].
  exact (main_summary (H := PyFloat.sum_left) _ _ _ _ _ Hin).
Defined.

Lemma nan_sample_nan_mean_witness :
  let data := [staff "A" "1"; staff "B" "2"; staff "B" "NaN";
               staff "C" "3"] in
  let rows := [[CStr "A"; CFloat (decimal 1 0)];
               [CStr "B"; CFloat PyFloat.nan];
               [CStr "C"; CFloat (decimal 3 0)]] in
  staff "B" "NaN" ∈ data /\
  valid_sample (staff "B" "NaN") = Some ("B", PyFloat.nan) /\
  @PerformanceReport.generate PyFloat.sum_neumaier data
    = Ok (["Position"; "Avg Performance"], rows) /\
  [CStr "B"; CFloat PyFloat.nan] ∈ rows.
Proof.
  cbv zeta.
  assert (Hin : staff "B" "NaN"
                  ∈ [staff "A" "1"; staff "B" "2"; staff "B" "NaN";
                     staff "C" "3"])
    by (right; right; left).
  assert (Hv : valid_sample (staff "B" "NaN") = Some ("B", PyFloat.nan))
    by evaluate.
  assert (E : @PerformanceReport.generate PyFloat.sum_neumaier
                [staff "A" "1"; staff "B" "2"; staff "B" "NaN";
                 staff "C" "3"]
              = Ok (["Position"; "Avg Performance"],
                    [[CStr "A"; CFloat (decimal 1 0)];
                     [CStr "B"; CFloat PyFloat.nan];
                     [CStr "C"; CFloat (decimal 3 0)]]))
    by evaluate.
  split; [exact Hin|]. split; [exact Hv|]. split; [exact E|].
  exact (nan_sample_nan_mean PyFloat.sum_neumaier _ _ _ _ _
           (or_intror eq_refl) Hin Hv E).
Defined.
